(** * iSpy device analytics: snapshot producer, history store, trend analyzer

    A shallow embedding of [src/modules/advanced_analytics.py]
    (class [DeviceAnalytics]) and the properties its specification states.

    Conventions of the embedding.
    - Python floats are exact rationals ([Q]); [numpy.polyfit(x, y, 1)] is the
      closed-form solution of the normal equations, proved below to be the
      unique least-squares line.  Rounding error of binary floating point is
      not modelled.
    - A [datetime] is an integer number of microseconds since 0001-01-01T00:00;
      the finite range of [datetime] and [timedelta] is not modelled.
    - A Python [dict] with string keys is a [gmap string _]; the analytics
      directory is a [gmap] from file names to file contents.
    - An exception inside a [try] block is [None] in the option monad; the
      handler is the [default] applied around the block.  Exceptions that
      escape a method are the [Raised] outcome. *)

From Stdlib Require Import ZArith QArith Qround Qabs Lia Lqa String Ascii List.
From Stdlib Require Qcanon.
From stdpp Require Import base option gmap list strings.
Import ListNotations.
Local Open Scope string_scope.
Local Open Scope list_scope.
Local Open Scope Z_scope.

(** ** Numbers: sums, least squares, rounding *)

Module Numeric.

Definition qsum (l : list Q) : Q := fold_right Qplus 0%Q l.

(** [float(n)] for a length or an index *)
Definition nQ (n : nat) : Q := inject_Z (Z.of_nat n).

(** [np.arange(n)] *)
Definition arange (n : nat) : list Q := map nQ (seq 0 n).

(** [np.polyfit(x, y, 1)]: the coefficients [(slope, intercept)] of the
    degree-one least-squares polynomial, highest power first. *)
Definition polyfit (x y : list Q) : Q * Q :=
  let n := nQ (length x) in
  let sx := qsum x in
  let sy := qsum y in
  let sxx := qsum (zip_with Qmult x x) in
  let sxy := qsum (zip_with Qmult x y) in
  let slope := ((n * sxy - sx * sy) / (n * sxx - sx * sx))%Q in
  let intercept := ((sy - slope * sx) / n)%Q in
  (slope, intercept).

(** Nearest integer, ties to the even neighbour. *)
Definition round_half_even (x : Q) : Z :=
  let f := Qfloor x in
  match (x - inject_Z f ?= 1 # 2)%Q with
  | Lt => f
  | Gt => f + 1
  | Eq => if Z.even f then f else f + 1
  end.

(** [round(x, 2)] *)
Definition round2 (x : Q) : Q :=
  Qred (inject_Z (round_half_even (x * 100)) / 100).

(** [a > b] and [a < b] on floats *)
Definition Qgtb (a b : Q) : bool :=
  match (a ?= b)%Q with Gt => true | _ => false end.
Definition Qltb (a b : Q) : bool :=
  match (a ?= b)%Q with Lt => true | _ => false end.

(** Sum of squared residuals of the line [a * x + b] on the points
    [(x_i, y_i)]; what a least-squares fit minimises. *)
Definition sse (a b : Q) (x y : list Q) : Q :=
  qsum (zip_with (fun xi yi => (yi - (a * xi + b)) * (yi - (a * xi + b)))%Q x y).

(** [(a, b)] is an ordinary-least-squares line for the series [y] over the
    equally spaced abscissae [0 .. n-1]. *)
Definition least_squares_fit (a b : Q) (y : list Q) : Prop :=
  forall a' b' : Q,
    (sse a b (arange (length y)) y <= sse a' b' (arange (length y)) y)%Q.

End Numeric.
Export Numeric.

(** ** Python values *)

Inductive value : Type :=
| VNone
| VBool (b : bool)
| VInt (z : Z)
| VFloat (q : Q)
| VStr (s : string).

(** [bool(v)] *)
Definition truthy (v : value) : bool :=
  match v with
  | VNone => false
  | VBool b => b
  | VInt z => negb (z =? 0)
  | VFloat q => negb (Qeq_bool q 0)
  | VStr s => negb (String.eqb s "")
  end.

(** [v is not None] *)
Definition is_not_None (v : value) : bool :=
  match v with VNone => false | _ => true end.

(** The number a value stands for in arithmetic and in a numpy array;
    a string or [None] raises [TypeError]. *)
Definition as_number (v : value) : option Q :=
  match v with
  | VInt z => Some (inject_Z z)
  | VFloat q => Some q
  | VBool b => Some (if b then 1%Q else 0%Q)
  | VNone | VStr _ => None
  end.

Definition numbers (vs : list value) : option (list Q) := mapM as_number vs.

(** The values on which a conditional [... if x else None] takes its first
    branch: [None] and zero are both falsy. *)
Definition if_int (o : option Z) : option Z :=
  z ← o; if z =? 0 then None else Some z.
Definition if_float (o : option Q) : option Q :=
  q ← o; if Qeq_bool q 0 then None else Some q.

Definition of_int (o : option Z) : value :=
  match o with Some z => VInt z | None => VNone end.
Definition of_float (o : option Q) : value :=
  match o with Some q => VFloat q | None => VNone end.

(** *** Strings: [str.strip], [str.lower], [int(str)] on ASCII text *)

Module PyStr.

Definition is_space (c : ascii) : bool :=
  let n := N_of_ascii c in
  ((9 <=? n) && (n <=? 13) || (28 <=? n) && (n <=? 32))%N.

Fixpoint lstrip (s : string) : string :=
  match s with
  | String c rest => if is_space c then lstrip rest else s
  | EmptyString => EmptyString
  end.

Fixpoint rstrip (s : string) : string :=
  match s with
  | String c rest =>
      match rstrip rest with
      | EmptyString => if is_space c then EmptyString else String c EmptyString
      | r => String c r
      end
  | EmptyString => EmptyString
  end.

Definition strip (s : string) : string := rstrip (lstrip s).

Definition lower_char (c : ascii) : ascii :=
  let n := N_of_ascii c in
  if ((65 <=? n) && (n <=? 90))%N then ascii_of_N (n + 32) else c.

Fixpoint lower (s : string) : string :=
  match s with
  | String c rest => String (lower_char c) (lower rest)
  | EmptyString => EmptyString
  end.

Definition digit (c : ascii) : option Z :=
  let n := N_of_ascii c in
  if ((48 <=? n) && (n <=? 57))%N then Some (Z.of_N (n - 48)) else None.

(** Decimal digits, single underscores allowed between two digits. *)
Fixpoint digits (acc : Z) (after_digit : bool) (s : string) : option Z :=
  match s with
  | EmptyString => if after_digit then Some acc else None
  | String c rest =>
      match digit c with
      | Some d => digits (acc * 10 + d) true rest
      | None =>
          if (Ascii.eqb c "_" && after_digit)%bool then digits acc false rest
          else None
      end
  end.

(** [int(s)]: [None] stands for [ValueError]. *)
Definition int (s : string) : option Z :=
  match strip s with
  | String "-" rest => Z.opp <$> digits 0 false rest
  | String "+" rest => digits 0 false rest
  | t => digits 0 false t
  end.

End PyStr.

(** ** Metric snapshot producer *)

Abbreviation snapshot := (gmap string value).

(** [subprocess.CompletedProcess], as far as the code reads it. *)
Record CompletedProcess : Type := { returncode : Z; stdout : string }.

(** The connected device: the outcome of
    [subprocess.run(['ideviceinfo', '-u', udid, '-k', key], ...)] for each
    key; [None] when [subprocess.run] itself raises. *)
Definition device : Type := string -> option CompletedProcess.

Definition GiB : Q := inject_Z (1024 ^ 3).

(** [int(r.stdout.strip()) if r.returncode == 0 else None]; the outer option
    is the [ValueError] of [int]. *)
Definition int_reading (r : CompletedProcess) : option (option Z) :=
  if returncode r =? 0 then Some <$> PyStr.int (PyStr.strip (stdout r))
  else Some None.

Definition _get_battery_metrics (ideviceinfo : device) : snapshot :=
  default {[ "level" := VNone; "cycle_count" := VNone; "is_charging" := VNone ]}
    (level_result ← ideviceinfo "BatteryCurrentCapacity";
     cycle_result ← ideviceinfo "BatteryCycleCount";
     charging_result ← ideviceinfo "BatteryIsCharging";
     level ← int_reading level_result;
     cycle_count ← int_reading cycle_result;
     let is_charging :=
       if returncode charging_result =? 0
       then VBool (String.eqb (PyStr.lower (PyStr.strip (stdout charging_result))) "true")
       else VNone in
     Some {[ "level" := of_int level;
             "cycle_count" := of_int cycle_count;
             "is_charging" := is_charging ]}).

Definition _get_storage_metrics (ideviceinfo : device) : snapshot :=
  default {[ "total_gb" := VNone; "used_gb" := VNone;
             "available_gb" := VNone; "usage_percent" := VNone ]}
    (total_result ← ideviceinfo "TotalDiskCapacity";
     available_result ← ideviceinfo "AmountDataAvailable";
     total_bytes ← int_reading total_result;
     available_bytes ← int_reading available_result;
     let used_bytes :=
       t ← if_int total_bytes; a ← if_int available_bytes; Some (t - a) in
     let usage_percent :=
       t ← if_int total_bytes; u ← if_int used_bytes;
       Some (inject_Z u / inject_Z t * 100)%Q in
     Some {[ "total_gb" :=
               of_float ((fun t => round2 (inject_Z t / GiB)) <$> if_int total_bytes);
             "used_gb" :=
               of_float ((fun u => round2 (inject_Z u / GiB)) <$> if_int used_bytes);
             "available_gb" :=
               of_float ((fun a => round2 (inject_Z a / GiB)) <$> if_int available_bytes);
             "usage_percent" :=
               of_float (round2 <$> if_float usage_percent) ]}).

Definition _get_performance_metrics (ideviceinfo : device) : snapshot :=
  default {[ "total_memory_gb" := VNone; "thermal_state" := VNone ]}
    (memory_result ← ideviceinfo "TotalSystemAvailable";
     thermal_result ← ideviceinfo "ThermalState";
     total_memory_gb ←
       (if returncode memory_result =? 0
        then n ← PyStr.int (PyStr.strip (stdout memory_result));
             Some (VFloat (round2 (inject_Z n / GiB)))
        else Some VNone);
     Some {[ "total_memory_gb" := total_memory_gb;
             "thermal_state" :=
               if returncode thermal_result =? 0
               then VStr (PyStr.strip (stdout thermal_result))
               else VNone ]}).

(** ** History store *)

(** What [json.dump] writes for one scalar, and what [json.load] reads. *)
Inductive json_scalar : Type :=
| JNull
| JTrue
| JFalse
| JInteger (z : Z)
| JReal (q : Q)
| JString (s : string).

Abbreviation json_object := (gmap string json_scalar).

(** The bytes of a history file: a JSON array of flat objects, which is what
    the store itself writes, or bytes on which [open] or [json.load] raises
    (truncated, corrupt or unreadable). *)
Inductive content : Type :=
| Garbled
| Document (entries : list json_object).

(** The directory [~/.ispy/analytics/<udid>/]: file name to content. *)
Abbreviation directory := (gmap string content).

Definition encode (v : value) : json_scalar :=
  match v with
  | VNone => JNull
  | VBool true => JTrue
  | VBool false => JFalse
  | VInt z => JInteger z
  | VFloat q => JReal q
  | VStr s => JString s
  end.

Definition decode (j : json_scalar) : value :=
  match j with
  | JNull => VNone
  | JTrue => VBool true
  | JFalse => VBool false
  | JInteger z => VInt z
  | JReal q => VFloat q
  | JString s => VStr s
  end.

Definition encode_object (entry : snapshot) : json_object := encode <$> entry.
Definition decode_object (obj : json_object) : snapshot := decode <$> obj.

(** [json.dump(history, f, indent=2)] *)
Definition json_dump (history : list snapshot) : content :=
  Document (map encode_object history).

(** [json.load(f)]; [None] when [open] or the parser raises. *)
Definition json_load (file : content) : option (list snapshot) :=
  match file with
  | Garbled => None
  | Document entries => Some (map decode_object entries)
  end.

(** The state of the storage medium when a file is opened for writing. *)
Inductive medium : Type :=
| Writable
| ReadOnly   (* [open(.., 'w')] raises; the file is left as it was *)
| Full.      (* [open] truncates, the write fails part-way *)

Inductive exn : Type := OSError.

Inductive outcome (A : Type) : Type :=
| Returned (a : A)
| Raised (e : exn).
Arguments Returned {A} a.
Arguments Raised {A} e.

(** [l[-n:]] for [0 < n] *)
Definition last_n {A} (n : nat) (l : list A) : list A :=
  skipn (length l - n) l.

Definition history_path (metric_type : string) : string :=
  metric_type +:+ "_history.json".

Definition _append_to_history (disk : medium) (dir : directory)
    (metric_type : string) (data : snapshot) : outcome unit * directory :=
  let history_file := history_path metric_type in
  let history :=
    match dir !! history_file with
    | Some file => default [] (json_load file)
    | None => []
    end in
  let history := history ++ [data] in
  let history :=
    if (1000 <? length history)%nat then last_n 1000 history else history in
  match disk with
  | Writable => (Returned (), <[history_file := json_dump history]> dir)
  | ReadOnly => (Raised OSError, dir)
  | Full => (Raised OSError, <[history_file := Garbled]> dir)
  end.

(** The history an append starts from: the loaded file, or the empty list
    when there is no file or it cannot be loaded. *)
Definition stored (dir : directory) (metric_type : string) : list snapshot :=
  match dir !! history_path metric_type with
  | Some file => default [] (json_load file)
  | None => []
  end.

(** [collect_historical_data]; [timestamp] is [datetime.now().isoformat()]. *)
Definition collect_historical_data (timestamp : string) (ideviceinfo : device)
    (disk : medium) (dir : directory)
  : outcome (gmap string snapshot) * directory :=
  let battery_data := <["timestamp" := VStr timestamp]> (_get_battery_metrics ideviceinfo) in
  let storage_data := <["timestamp" := VStr timestamp]> (_get_storage_metrics ideviceinfo) in
  let performance_data :=
    <["timestamp" := VStr timestamp]> (_get_performance_metrics ideviceinfo) in
  match _append_to_history disk dir "battery" battery_data with
  | (Raised e, dir) => (Raised e, dir)
  | (Returned _, dir) =>
      match _append_to_history disk dir "storage" storage_data with
      | (Raised e, dir) => (Raised e, dir)
      | (Returned _, dir) =>
          match _append_to_history disk dir "performance" performance_data with
          | (Raised e, dir) => (Raised e, dir)
          | (Returned _, dir) =>
              (Returned {[ "battery" := battery_data;
                           "storage" := storage_data;
                           "performance" := performance_data ]}, dir)
          end
      end
  end.

(** A run of appends to one key on a medium that stays writable. *)
Definition append_all (metric_type : string) (dir : directory)
    (snapshots : list snapshot) : directory :=
  fold_left (fun d s => snd (_append_to_history Writable d metric_type s))
            snapshots dir.

(** ** Trend analyzer *)

Inductive trend_label : Type := improving | stable | degrading.

Record AnalyticsResult : Type := {
  metric_name : string;
  current_value : Q;
  trend : trend_label;
  prediction : option Q;
  confidence : Q;
  recommendations : list string
}.

Definition _calculate_trend (values : list Q) : trend_label :=
  if (length values <? 2)%nat then stable
  else
    let x := arange (length values) in
    let slope := fst (polyfit x values) in
    if Qgtb slope (1 # 10) then improving
    else if Qltb slope (- (1 # 10)) then degrading
    else stable.

Definition _predict_next_value (values : list Q) : option Q :=
  if (length values <? 3)%nat then None
  else
    let x := arange (length values) in
    let coeffs := polyfit x values in
    let next_x := nQ (length values) in
    let prediction := (fst coeffs * next_x + snd coeffs)%Q in
    Some (round2 prediction).

Definition _get_battery_recommendations (trend : trend_label) (current_level : Q)
  : list string :=
  (match trend with
   | degrading =>
       [ "Battery performance declining - monitor closely";
         "Consider enabling Low Power Mode more frequently";
         "Reduce screen brightness and background app refresh" ]
   | _ => []
   end)
  ++ (if Qltb current_level 20 then ["Charge device soon to avoid shutdown"] else []).

Definition _get_cycle_recommendations (cycle_count : Q) : list string :=
  (if Qgtb cycle_count 500
   then [ "Battery cycle count is high - consider replacement";
          "Enable Optimized Battery Charging";
          "Avoid frequent full charge/discharge cycles" ]
   else [])
  ++ (if Qgtb cycle_count 1000 then ["Battery replacement strongly recommended"] else []).

Definition _get_storage_recommendations (trend : trend_label) (current_usage : Q)
  : list string :=
  (if (match trend with degrading => true | _ => false end) || Qgtb current_usage 85
   then [ "Storage usage increasing rapidly";
          "Delete unused apps and files";
          "Enable Optimize iPhone Storage for Photos";
          "Review and delete large attachments" ]
   else [])
  ++ (if Qgtb current_usage 95
      then ["Critical storage level - immediate cleanup needed"] else []).

Definition _get_thermal_recommendations (thermal_score : Q) : list string :=
  if Qltb thermal_score 70
  then [ "Device overheating frequently";
         "Avoid intensive tasks while charging";
         "Remove case during heavy usage";
         "Keep device out of direct sunlight" ]
  else [].

(** [state not in ['Normal', 'Fair']] *)
Definition thermal_issue (state : value) : bool :=
  match state with
  | VStr s => negb (String.eqb s "Normal" || String.eqb s "Fair")
  | _ => true
  end.

(** [max(0, 100 - (thermal_issues / len(thermal_states) * 100))] *)
Definition thermal_score_of (thermal_states : list value) : Q :=
  let thermal_issues := length (List.filter thermal_issue thermal_states) in
  let score :=
    (100 - nQ thermal_issues / nQ (length thermal_states) * 100)%Q in
  if Qgtb score 0 then score else 0%Q.

(** [[entry[key] for entry in entries if keep(entry[key])]]; [None] is the
    [KeyError] of a missing key. *)
Fixpoint column (key : string) (keep : value -> bool) (entries : list snapshot)
  : option (list value) :=
  match entries with
  | [] => Some []
  | entry :: rest =>
      v ← entry !! key;
      vs ← column key keep rest;
      Some (if keep v then v :: vs else vs)
  end.

(** Microseconds in [timedelta(days=1)]. *)
Definition DAY : Z := 86400000000.

Section Analyzer.

(** [datetime.fromisoformat]: the instant a string denotes, or [None] for
    [ValueError].  Library code, taken as a parameter. *)
Variable fromisoformat : string -> option Z.

(** [datetime.fromisoformat(entry['timestamp'])]; [None] for [KeyError],
    [TypeError] (not a string) and [ValueError]. *)
Definition timestamp_of (entry : snapshot) : option Z :=
  v ← entry !! "timestamp";
  match v with VStr s => fromisoformat s | _ => None end.

(** [[entry for entry in history
      if datetime.fromisoformat(entry['timestamp']) >= cutoff_date]] *)
Fixpoint since (cutoff_date : Z) (history : list snapshot)
  : option (list snapshot) :=
  match history with
  | [] => Some []
  | entry :: rest =>
      t ← timestamp_of entry;
      kept ← since cutoff_date rest;
      Some (if cutoff_date <=? t then entry :: kept else kept)
  end.

(** The test of that comprehension on one entry, for entries whose
    timestamp can be read. *)
Definition in_window (cutoff_date : Z) (entry : snapshot) : bool :=
  match timestamp_of entry with
  | Some t => cutoff_date <=? t
  | None => false
  end.

(** The filter every [_analyze_*] method applies to the loaded history:
    [cutoff_date = datetime.now() - timedelta(days=days)]. *)
Definition recent (now days : Z) (history : list snapshot)
  : option (list snapshot) :=
  let cutoff_date := now - days * DAY in
  since cutoff_date history.

Definition _analyze_battery_trends (dir : directory) (now days : Z)
  : gmap string AnalyticsResult :=
  match dir !! "battery_history.json" with
  | None => ∅
  | Some file =>
      default ∅
        (history ← json_load file;
         recent_history ← recent now days history;
         if (length recent_history <? 3)%nat then Some ∅
         else
           levels ← column "level" is_not_None recent_history;
           cycle_counts ← column "cycle_count" is_not_None recent_history;
           results ←
             match levels with
             | [] => Some ∅
             | _ :: _ =>
                 values ← numbers levels;
                 let level_trend := _calculate_trend values in
                 let current := List.last values 0%Q in
                 Some (<["battery_level" :=
                          {| metric_name := "Battery Level";
                             current_value := current;
                             trend := level_trend;
                             prediction := _predict_next_value values;
                             confidence := 7 # 10;
                             recommendations :=
                               _get_battery_recommendations level_trend current |}]>
                         (∅ : gmap string AnalyticsResult))
             end;
           if (1 <? length cycle_counts)%nat
           then
             values ← numbers cycle_counts;
             let cycle_trend := _calculate_trend values in
             let current := List.last values 0%Q in
             Some (<["battery_cycles" :=
                      {| metric_name := "Battery Cycles";
                         current_value := current;
                         trend := cycle_trend;
                         prediction := _predict_next_value values;
                         confidence := 8 # 10;
                         recommendations := _get_cycle_recommendations current |}]>
                     results)
           else Some results)
  end.

Definition _analyze_storage_trends (dir : directory) (now days : Z)
  : gmap string AnalyticsResult :=
  match dir !! "storage_history.json" with
  | None => ∅
  | Some file =>
      default ∅
        (history ← json_load file;
         recent_history ← recent now days history;
         if (length recent_history <? 3)%nat then Some ∅
         else
           usage_percents ← column "usage_percent" is_not_None recent_history;
           match usage_percents with
           | [] => Some ∅
           | _ :: _ =>
               values ← numbers usage_percents;
               let usage_trend := _calculate_trend values in
               let current := List.last values 0%Q in
               Some (<["storage_usage" :=
                        {| metric_name := "Storage Usage";
                           current_value := current;
                           trend := usage_trend;
                           prediction := _predict_next_value values;
                           confidence := 9 # 10;
                           recommendations :=
                             _get_storage_recommendations usage_trend current |}]>
                       (∅ : gmap string AnalyticsResult))
           end)
  end.

Definition _analyze_performance_trends (dir : directory) (now days : Z)
  : gmap string AnalyticsResult :=
  match dir !! "performance_history.json" with
  | None => ∅
  | Some file =>
      default ∅
        (history ← json_load file;
         recent_history ← recent now days history;
         if (length recent_history <? 3)%nat then Some ∅
         else
           thermal_states ← column "thermal_state" truthy recent_history;
           match thermal_states with
           | [] => Some ∅
           | _ :: _ =>
               let thermal_score := thermal_score_of thermal_states in
               Some (<["thermal_performance" :=
                        {| metric_name := "Thermal Performance";
                           current_value := thermal_score;
                           trend := if Qgtb thermal_score 80 then stable else degrading;
                           prediction := None;
                           confidence := 6 # 10;
                           recommendations :=
                             _get_thermal_recommendations thermal_score |}]>
                       (∅ : gmap string AnalyticsResult))
           end)
  end.

(** [analyze_trends]: [results.update] in the order battery, storage,
    performance, so a later family overrides an earlier one. *)
Definition analyze_trends (dir : directory) (now days : Z)
  : gmap string AnalyticsResult :=
  _analyze_performance_trends dir now days
  ∪ (_analyze_storage_trends dir now days
     ∪ _analyze_battery_trends dir now days).

(** The window of a stored history the analyzer works on: the entries of
    the file of [metric_type] that pass the cutoff, and the empty sequence
    when there is no file.  [None] when loading or filtering raises, which
    every caller turns into an empty result. *)
Definition window (dir : directory) (metric_type : string) (now days : Z)
  : option (list snapshot) :=
  match dir !! history_path metric_type with
  | None => Some []
  | Some file => history ← json_load file; recent now days history
  end.

End Analyzer.

(** *** ISO-8601 instants

    The strings [datetime.isoformat()] produces for a naive [datetime]:
    [YYYY-MM-DDTHH:MM:SS] with an optional [.ffffff], read back as
    microseconds since 0001-01-01T00:00:00.  One instance of the
    [fromisoformat] parameter, used to run the analyzer on concrete
    histories. *)

Module Iso8601.

Fixpoint number (n : nat) (acc : Z) (s : string) : option (Z * string) :=
  match n with
  | O => Some (acc, s)
  | S n' =>
      match s with
      | String c rest => d ← PyStr.digit c; number n' (acc * 10 + d) rest
      | EmptyString => None
      end
  end.

Definition expect (c : ascii) (s : string) : option string :=
  match s with
  | String c' rest => if Ascii.eqb c c' then Some rest else None
  | EmptyString => None
  end.

Definition is_leap (y : Z) : bool :=
  (y mod 4 =? 0) && (negb (y mod 100 =? 0) || (y mod 400 =? 0)).

Definition days_in_month (y m : Z) : Z :=
  if m =? 2 then (if is_leap y then 29 else 28)
  else if (m =? 4) || (m =? 6) || (m =? 9) || (m =? 11) then 30
  else 31.

Definition days_before_year (y : Z) : Z :=
  let p := y - 1 in p * 365 + p / 4 - p / 100 + p / 400.

Definition days_before_month (y m : Z) : Z :=
  fold_right Z.add 0
    (map (days_in_month y) (map Z.of_nat (seq 1 (Z.to_nat (m - 1))))).

Definition fromisoformat (s : string) : option Z :=
  '(y, s) ← number 4 0 s; s ← expect "-" s;
  '(m, s) ← number 2 0 s; s ← expect "-" s;
  '(d, s) ← number 2 0 s; s ← expect "T" s;
  '(hh, s) ← number 2 0 s; s ← expect ":" s;
  '(mm, s) ← number 2 0 s; s ← expect ":" s;
  '(ss, s) ← number 2 0 s;
  us ← match s with
       | EmptyString => Some 0
       | _ => s ← expect "." s;
              '(us, s) ← number 6 0 s;
              match s with EmptyString => Some us | _ => None end
       end;
  if (1 <=? y) && (1 <=? m) && (m <=? 12) && (1 <=? d) && (d <=? days_in_month y m)
     && (hh <=? 23) && (mm <=? 59) && (ss <=? 59)
  then Some (((((days_before_year y + days_before_month y m + (d - 1)) * 24 + hh)
                 * 60 + mm) * 60 + ss) * 1000000 + us)
  else None.

End Iso8601.

(** ** Concrete devices and histories *)

Module Scenario.

(** A device answering the given keys, every other query failing. *)
Definition answering (answers : list (string * string)) : device :=
  fun key =>
    match List.find (fun kv => String.eqb (fst kv) key) answers with
    | Some kv => Some {| returncode := 0; stdout := snd kv |}
    | None => Some {| returncode := 1; stdout := "" |}
    end.

(** A 64 GB device with no free space left and an empty battery. *)
Definition exhausted : device :=
  answering [ ("TotalDiskCapacity", "64000000000");
              ("AmountDataAvailable", "0");
              ("BatteryCurrentCapacity", "0");
              ("BatteryCycleCount", "412");
              ("BatteryIsCharging", "false") ].

Definition day (d : string) : string := "2024-01-0" +:+ d +:+ "T09:30:00".

Definition now : Z := default 0 (Iso8601.fromisoformat "2024-01-06T09:30:00").

Definition battery_snapshot (timestamp : string) (level : value) : snapshot :=
  {[ "timestamp" := VStr timestamp; "level" := level;
     "cycle_count" := VInt 412; "is_charging" := VBool false ]}.

Definition performance_snapshot (timestamp state : string) : snapshot :=
  {[ "timestamp" := VStr timestamp; "total_memory_gb" := VFloat (3 # 1);
     "thermal_state" := VStr state ]}.

(** Levels 80, 75, 70, 65 on four consecutive days. *)
Definition falling_history : list snapshot :=
  [ battery_snapshot (day "1") (VInt 80); battery_snapshot (day "2") (VInt 75);
    battery_snapshot (day "3") (VInt 70); battery_snapshot (day "4") (VInt 65) ].
Definition falling : directory := append_all "battery" ∅ falling_history.



(** Five thermal readings, one of them outside Normal and Fair. *)
Definition warm_history : list snapshot :=
  [ performance_snapshot (day "1") "Normal"; performance_snapshot (day "2") "Serious";
    performance_snapshot (day "3") "Fair"; performance_snapshot (day "4") "Normal";
    performance_snapshot (day "5") "Normal" ].
Definition warm : directory := append_all "performance" ∅ warm_history.

(** A battery file that cannot be parsed. *)
Definition corrupt : directory := {[ "battery_history.json" := Garbled ]}.

(** 1005 snapshots, numbered by their level. *)
Definition long_run : list snapshot :=
  map (fun i => battery_snapshot (day "1") (VInt (Z.of_nat i))) (seq 0 1005).

(** A device whose cycle count is not a number. *)
Definition garbled_cycles : device :=
  answering [ ("BatteryCurrentCapacity", "80"); ("BatteryCycleCount", "n/a");
              ("BatteryIsCharging", "true") ].

(** A device whose level query fails. *)
Definition no_level : device :=
  answering [ ("BatteryCycleCount", "412"); ("BatteryIsCharging", "false") ].

(** A 64 GB device with 16 GB free, and one that does not tell its capacity. *)
Definition roomy : device :=
  answering [ ("TotalDiskCapacity", "64000000000");
              ("AmountDataAvailable", "16000000000") ].
Definition no_capacity : device :=
  answering [ ("AmountDataAvailable", "16000000000") ].

(** A device whose memory reading is not a number, and one whose memory
    query fails. *)
Definition garbled_memory : device :=
  answering [ ("TotalSystemAvailable", "n/a"); ("ThermalState", "Serious") ].
Definition no_memory : device :=
  answering [ ("ThermalState", " Serious ") ].

Definition storage_snapshot (timestamp : string) (usage_percent : Q) : snapshot :=
  {[ "timestamp" := VStr timestamp; "total_gb" := VFloat (64 # 1);
     "used_gb" := VNone; "available_gb" := VNone;
     "usage_percent" := VFloat usage_percent ]}.


(** A battery history whose second entry has no timestamp. *)
Definition undated_history : list snapshot :=
  [ battery_snapshot (day "1") (VInt 80);
    {[ "level" := VInt 75; "cycle_count" := VInt 412; "is_charging" := VBool false ]};
    battery_snapshot (day "3") (VInt 70); battery_snapshot (day "4") (VInt 65) ].
Definition undated : directory := append_all "battery" ∅ undated_history.

End Scenario.

(** * Properties *)

(** ** Sums and the least-squares line *)

Lemma qsum_cons a l : qsum (a :: l) = (a + qsum l)%Q.
Proof. reflexivity. Qed.







Lemma Qsquare_nonneg (t : Q) : (0 <= t * t)%Q.
Proof. nra. Qed.







Lemma sse_nonneg a b x y : (0 <= sse a b x y)%Q.
Proof.
  unfold sse. revert y. induction x as [|xi x IH]; intros [|yi y]; try apply Qle_refl.
  cbn [zip_with]. rewrite qsum_cons.
  pose proof (Qsquare_nonneg (yi - (a * xi + b))). specialize (IH y). lra.
Qed.






(** ** Comparisons and rounding *)

Lemma Qgtb_spec a b : Qgtb a b = true <-> (b < a)%Q.
Proof.
  unfold Qgtb. rewrite (Qgt_alt a b). destruct (a ?= b)%Q; split; congruence.
Qed.

Lemma Qltb_spec a b : Qltb a b = true <-> (a < b)%Q.
Proof.
  unfold Qltb. rewrite (Qlt_alt a b). destruct (a ?= b)%Q; split; congruence.
Qed.

Lemma Qgtb_false a b : Qgtb a b = false <-> (a <= b)%Q.
Proof.
  pose proof (Qgtb_spec a b) as H. destruct (Qgtb a b).
  - split; [discriminate|]. intros Hle.
    assert (b < a)%Q by (apply H; reflexivity). lra.
  - split; [|reflexivity]. intros _. apply Qnot_lt_le. intros Hlt.
    apply H in Hlt. discriminate.
Qed.

Lemma Qltb_false a b : Qltb a b = false <-> (b <= a)%Q.
Proof.
  pose proof (Qltb_spec a b) as H. destruct (Qltb a b).
  - split; [discriminate|]. intros Hle.
    assert (a < b)%Q by (apply H; reflexivity). lra.
  - split; [|reflexivity]. intros _. apply Qnot_lt_le. intros Hlt.
    apply H in Hlt. discriminate.
Qed.




(** On a tie the even neighbour is chosen. *)
Lemma round_half_even_tie x :
  (x - inject_Z (Qfloor x) == 1 # 2)%Q -> Z.even (round_half_even x) = true.
Proof.
  intros E. unfold round_half_even. apply Qeq_alt in E. rewrite E.
  destruct (Z.even (Qfloor x)) eqn:Ev; [assumption|].
  rewrite Z.even_add, Ev. reflexivity.
Qed.




(** ** Trend classification and forecast *)



Lemma predict_next_value_short values :
  (length values < 3)%nat -> _predict_next_value values = None.
Proof.
  intros H. unfold _predict_next_value.
  destruct (Nat.ltb_spec (length values) 3); [reflexivity | lia].
Qed.

Lemma predict_next_value_long values :
  (3 <= length values)%nat ->
  _predict_next_value values =
  Some (round2 (fst (polyfit (arange (length values)) values) * nQ (length values)
                + snd (polyfit (arange (length values)) values))).
Proof.
  intros H. unfold _predict_next_value.
  destruct (Nat.ltb_spec (length values) 3); [lia | reflexivity].
Qed.






(** The line through 80, 75, 70, 65 has slope -5 and intercept 80. *)
Lemma falling_series_fit : least_squares_fit (-5) 80 [80; 75; 70; 65]%Q.
Proof.
  intros a b.
  assert (E : (sse (-5) 80 (arange 4) [80; 75; 70; 65] == 0)%Q) by reflexivity.
  cbn [length]. rewrite E. apply sse_nonneg.
Qed.

(** C6: on the series 80, 75, 70, 65 the trend is [degrading] and the
    forecast is 60; the line through the four points has slope -5 and
    intercept 80. *)
Theorem C6_scenario_80_75_70_65 :
  _calculate_trend [80; 75; 70; 65]%Q = degrading
  /\ _predict_next_value [80; 75; 70; 65]%Q = Some 60%Q
  /\ least_squares_fit (-5) 80 [80; 75; 70; 65]%Q.
Proof.
  split; [reflexivity|]. split; [reflexivity|]. exact falling_series_fit.
Qed.

(** ** The history store *)

Lemma decode_encode v : decode (encode v) = v.
Proof. destruct v as [|[]| | |]; reflexivity. Qed.

Lemma decode_encode_object (entry : snapshot) :
  decode_object (encode_object entry) = entry.
Proof.
  unfold decode_object, encode_object. apply map_eq. intros k.
  rewrite !lookup_fmap. destruct (entry !! k) as [v|]; simpl; [|reflexivity].
  rewrite decode_encode. reflexivity.
Qed.

(** What [json.dump] writes, [json.load] reads back unchanged. *)
Lemma json_load_dump history : json_load (json_dump history) = Some history.
Proof.
  unfold json_load, json_dump. f_equal. rewrite map_map.
  rewrite <- (map_id history) at 2. apply map_ext. intros e. apply decode_encode_object.
Qed.

Lemma length_last_n {A} n (l : list A) : length (last_n n l) = Nat.min n (length l).
Proof. unfold last_n. rewrite length_skipn. lia. Qed.

Lemma last_n_all {A} n (l : list A) : (length l <= n)%nat -> last_n n l = l.
Proof.
  intros H. unfold last_n. replace (length l - n)%nat with 0%nat by lia. reflexivity.
Qed.

Lemma last_n_app {A} n (l1 l2 : list A) :
  (length l2 <= n)%nat -> last_n n (l1 ++ l2) = last_n (n - length l2) l1 ++ l2.
Proof.
  intros H. unfold last_n. rewrite length_app, skipn_app.
  replace (length l1 + length l2 - n - length l1)%nat with 0%nat by lia.
  replace (length l1 + length l2 - n)%nat with (length l1 - (n - length l2))%nat by lia.
  reflexivity.
Qed.

Lemma last_n_app_long {A} n (l1 l2 : list A) :
  (n <= length l2)%nat -> last_n n (l1 ++ l2) = last_n n l2.
Proof.
  intros H. unfold last_n. rewrite length_app, skipn_app.
  rewrite skipn_all2 by lia.
  replace (length l1 + length l2 - n - length l1)%nat with (length l2 - n)%nat by lia.
  reflexivity.
Qed.

Lemma last_n_last_n {A} m n (l : list A) :
  (m <= n)%nat -> last_n m (last_n n l) = last_n m l.
Proof.
  intros H. unfold last_n. rewrite length_skipn, skipn_skipn. f_equal. lia.
Qed.

(** Capping twice is capping once: the sliding window only ever drops from
    the front. *)
Lemma last_n_app_last_n {A} n (l r : list A) :
  last_n n (last_n n l ++ r) = last_n n (l ++ r).
Proof.
  destruct (Nat.le_gt_cases (length r) n) as [H|H].
  - rewrite !last_n_app by assumption. rewrite last_n_last_n by lia. reflexivity.
  - rewrite !last_n_app_long by lia. reflexivity.
Qed.

Lemma history_cap {A} (history : list A) :
  (if (1000 <? length history)%nat then last_n 1000 history else history)
  = last_n 1000 history.
Proof.
  destruct (Nat.ltb_spec 1000 (length history)); [reflexivity|].
  symmetry. apply last_n_all. assumption.
Qed.

(** An append on a writable medium: the file becomes the dump of the last
    1000 entries of the old history followed by the new snapshot. *)
Lemma append_writable dir metric_type data :
  _append_to_history Writable dir metric_type data =
  (Returned (),
   <[history_path metric_type :=
       json_dump (last_n 1000 (stored dir metric_type ++ [data]))]> dir).
Proof.
  unfold _append_to_history, stored. cbv zeta. rewrite history_cap. reflexivity.
Qed.

Lemma stored_insert_dump dir metric_type history :
  stored (<[history_path metric_type := json_dump history]> dir) metric_type = history.
Proof. unfold stored. rewrite lookup_insert_eq, json_load_dump. reflexivity. Qed.

Lemma stored_append dir metric_type data :
  stored (snd (_append_to_history Writable dir metric_type data)) metric_type
  = last_n 1000 (stored dir metric_type ++ [data]).
Proof. rewrite append_writable. apply stored_insert_dump. Qed.

Lemma append_all_snoc metric_type dir snapshots data :
  append_all metric_type dir (snapshots ++ [data])
  = snd (_append_to_history Writable (append_all metric_type dir snapshots)
           metric_type data).
Proof. unfold append_all. rewrite fold_left_app. reflexivity. Qed.

Lemma stored_append_all metric_type dir snapshots :
  snapshots <> [] ->
  stored (append_all metric_type dir snapshots) metric_type
  = last_n 1000 (stored dir metric_type ++ snapshots).
Proof.
  induction snapshots as [|data snapshots IH] using rev_ind; [congruence|].
  intros _. rewrite append_all_snoc, stored_append.
  destruct snapshots as [|s0 rest].
  - reflexivity.
  - rewrite IH by discriminate. rewrite last_n_app_last_n, app_assoc. reflexivity.
Qed.

Lemma append_all_lookup metric_type dir snapshots :
  snapshots <> [] ->
  append_all metric_type dir snapshots !! history_path metric_type
  = Some (json_dump (last_n 1000 (stored dir metric_type ++ snapshots))).
Proof.
  destruct snapshots as [|data snapshots _] using rev_ind; [congruence|].
  intros _. rewrite append_all_snoc, append_writable. cbn [snd].
  rewrite lookup_insert_eq. do 2 f_equal.
  destruct snapshots as [|s0 rest].
  - reflexivity.
  - rewrite stored_append_all by discriminate.
    rewrite last_n_app_last_n, app_assoc. reflexivity.
Qed.

(** The cap holds after every append, whatever the file held before. *)
Lemma append_length_le dir metric_type data :
  (length (stored (snd (_append_to_history Writable dir metric_type data)) metric_type)
   <= 1000)%nat.
Proof. rewrite stored_append, length_last_n. lia. Qed.

(** C2: after more than 1000 appends to one key, from any directory state,
    the file holds exactly the last 1000 appended snapshots in append order
    (entry i is the (N-1000+i)-th appended one), and after any single append
    the stored history has at most 1000 entries. *)
Theorem C2_append_cap (dir : directory) (metric_type : string)
    (snapshots : list snapshot) :
  (1000 < length snapshots)%nat ->
  let kept := skipn (length snapshots - 1000) snapshots in
  append_all metric_type dir snapshots !! history_path metric_type
    = Some (json_dump kept)
  /\ stored (append_all metric_type dir snapshots) metric_type = kept
  /\ length kept = 1000%nat
  /\ (forall i, (i < 1000)%nat ->
        kept !! i = snapshots !! (length snapshots - 1000 + i)%nat)
  /\ (forall d data,
        (length (stored (snd (_append_to_history Writable d metric_type data))
                   metric_type) <= 1000)%nat).
Proof.
  intros HN kept.
  assert (Hne : snapshots <> []) by (intros ->; simpl in HN; lia).
  assert (Hk : last_n 1000 (stored dir metric_type ++ snapshots) = kept).
  { rewrite last_n_app_long by lia. reflexivity. }
  repeat split.
  - rewrite append_all_lookup by assumption. rewrite Hk. reflexivity.
  - rewrite stored_append_all by assumption. exact Hk.
  - unfold kept. rewrite length_skipn. lia.
  - intros i _. unfold kept. apply lookup_drop.
  - intros d data. apply append_length_le.
Qed.


(** ** Windows of a stored history *)

Section WindowFacts.

Variable fromisoformat : string -> option Z.

#[local] Abbreviation timestamp_of := (timestamp_of fromisoformat).
#[local] Abbreviation since := (since fromisoformat).
#[local] Abbreviation in_window := (in_window fromisoformat).
#[local] Abbreviation recent := (recent fromisoformat).
#[local] Abbreviation window := (window fromisoformat).

(** Every entry carries a timestamp [fromisoformat] accepts. *)
#[local] Abbreviation readable := (Forall (fun entry => is_Some (timestamp_of entry))).

Lemma in_window_timestamp cutoff entry t :
  timestamp_of entry = Some t -> in_window cutoff entry = (cutoff <=? t).
Proof. unfold in_window. intros ->. reflexivity. Qed.

Lemma since_readable cutoff history :
  readable history ->
  since cutoff history = Some (List.filter (in_window cutoff) history).
Proof.
  induction 1 as [|entry rest [t Ht] _ IH]; [reflexivity|].
  cbn [since List.filter]. rewrite (in_window_timestamp _ _ _ Ht), Ht, IH. reflexivity.
Qed.

Lemma since_inv cutoff history kept :
  since cutoff history = Some kept ->
  readable history /\ kept = List.filter (in_window cutoff) history.
Proof.
  revert kept. induction history as [|entry rest IH]; intros kept H.
  - injection H as <-. split; [constructor | reflexivity].
  - cbn [since] in H.
    destruct (timestamp_of entry) as [t|] eqn:Ht; [|discriminate]. simpl in H.
    destruct (since cutoff rest) as [kept'|] eqn:Hr; [|discriminate]. simpl in H.
    destruct (IH kept' eq_refl) as [Hre ->]. injection H as <-.
    split; [constructor; [eexists; eassumption | assumption]|].
    cbn [List.filter]. rewrite (in_window_timestamp _ _ _ Ht). reflexivity.
Qed.

Lemma in_window_mono cutoff1 cutoff2 entry :
  cutoff2 <= cutoff1 -> in_window cutoff1 entry = true -> in_window cutoff2 entry = true.
Proof.
  unfold in_window. destruct (timestamp_of entry); [|discriminate].
  intros H1 H2. apply Z.leb_le in H2. apply Z.leb_le. lia.
Qed.

Lemma filter_sublist_mono {A} (p q : A -> bool) (l : list A) :
  (forall x, p x = true -> q x = true) ->
  List.filter p l `sublist_of` List.filter q l.
Proof.
  intros Hpq. induction l as [|x l IH]; [constructor|].
  cbn [List.filter]. destruct (p x) eqn:Hp.
  - rewrite (Hpq x Hp). apply sublist_skip. exact IH.
  - destruct (q x); [apply sublist_cons|]; exact IH.
Qed.

Lemma filter_sublist {A} (p : A -> bool) (l : list A) :
  List.filter p l `sublist_of` l.
Proof.
  induction l as [|x l IH]; [constructor|].
  cbn [List.filter]. destruct (p x); [apply sublist_skip | apply sublist_cons]; exact IH.
Qed.

Lemma filter_none {A} (p : A -> bool) (l : list A) :
  (forall x, x ∈ l -> p x = false) -> List.filter p l = [].
Proof.
  induction l as [|x l IH]; [reflexivity|]. intros H.
  cbn [List.filter]. rewrite (H x) by apply list_elem_of_here.
  apply IH. intros y Hy. apply H. apply list_elem_of_further. exact Hy.
Qed.

Lemma elem_of_in_window cutoff entry :
  in_window cutoff entry = true <->
  exists t, timestamp_of entry = Some t /\ cutoff <= t.
Proof.
  unfold in_window. destruct (timestamp_of entry) as [t|].
  - rewrite Z.leb_le. split; [eauto|]. intros (t' & [= <-] & H). exact H.
  - split; [discriminate|]. intros (t' & [=] & _).
Qed.

(** The window in terms of the history an append would start from. *)
Lemma window_inv dir metric_type now days w :
  window dir metric_type now days = Some w ->
  readable (stored dir metric_type)
  /\ w = List.filter (in_window (now - days * DAY)) (stored dir metric_type).
Proof.
  unfold window, stored. destruct (dir !! history_path metric_type) as [file|].
  - destruct (json_load file) as [history|]; [|discriminate]. simpl.
    unfold recent. apply since_inv.
  - intros [= <-]. split; [constructor | reflexivity].
Qed.

Lemma window_readable dir metric_type now days :
  dir !! history_path metric_type = None
  \/ (exists file history, dir !! history_path metric_type = Some file
                           /\ json_load file = Some history) ->
  readable (stored dir metric_type) ->
  window dir metric_type now days
  = Some (List.filter (in_window (now - days * DAY)) (stored dir metric_type)).
Proof.
  unfold window, stored. intros [->|(file & history & -> & ->)] Hre; simpl.
  - reflexivity.
  - unfold recent. apply since_readable. exact Hre.
Qed.

(** C9: for [d1 <= d2] the window of [d1] is a subsequence of the window
    of [d2]; each is the stored history filtered, in order, to the entries
    with timestamp at or after [now - d]; with no file, or with every entry
    older than the cutoff, the window is the empty sequence and not a
    failure. *)
Theorem C9_window_monotone (dir : directory) (metric_type : string)
    (now d1 d2 : Z) :
  (forall w1, d1 <= d2 ->
     window dir metric_type now d1 = Some w1 ->
     exists w2,
       window dir metric_type now d2 = Some w2
       /\ w1 `sublist_of` w2
       /\ w2 `sublist_of` stored dir metric_type
       /\ w1 = List.filter (in_window (now - d1 * DAY)) (stored dir metric_type)
       /\ w2 = List.filter (in_window (now - d2 * DAY)) (stored dir metric_type)
       /\ (forall entry,
             entry ∈ w1 <->
             entry ∈ stored dir metric_type
             /\ exists t, timestamp_of entry = Some t /\ now - d1 * DAY <= t))
  /\ (dir !! history_path metric_type = None ->
      window dir metric_type now d1 = Some [])
  /\ (forall file history,
        dir !! history_path metric_type = Some file ->
        json_load file = Some history ->
        (forall entry, entry ∈ history ->
           exists t, timestamp_of entry = Some t /\ t < now - d1 * DAY) ->
        window dir metric_type now d1 = Some []).
Proof.
  split; [|split].
  - intros w1 Hd Hw1. destruct (window_inv _ _ _ _ _ Hw1) as [Hre ->].
    exists (List.filter (in_window (now - d2 * DAY)) (stored dir metric_type)).
    assert (Hc : now - d2 * DAY <= now - d1 * DAY) by (unfold DAY; lia).
    split; [|split; [|split; [|split; [|split]]]].
    + apply window_readable; [|exact Hre].
      revert Hw1. unfold window.
      destruct (dir !! history_path metric_type) as [file|]; [|left; reflexivity].
      destruct (json_load file) as [history|] eqn:Hload; [|discriminate].
      intros _. right. eauto.
    + apply filter_sublist_mono. intros e. apply in_window_mono. exact Hc.
    + apply filter_sublist.
    + reflexivity.
    + reflexivity.
    + intros entry. rewrite list_elem_of_In, filter_In, <- list_elem_of_In.
      rewrite elem_of_in_window. reflexivity.
  - intros Hnone. unfold window. rewrite Hnone. reflexivity.
  - intros file history Hfile Hload Hold.
    assert (Hs : stored dir metric_type = history).
    { unfold stored. rewrite Hfile, Hload. reflexivity. }
    rewrite window_readable.
    + f_equal. rewrite Hs. apply filter_none. intros e He.
      destruct (Hold e He) as (t & Ht & Hlt).
      unfold in_window. rewrite Ht. apply Z.leb_gt. exact Hlt.
    + right. eauto.
    + rewrite Hs. apply Forall_forall. intros e He.
      destruct (Hold e He) as (t & Ht & _). eauto.
Qed.

End WindowFacts.

(** ** Appending, then reading the window back *)

Section RoundTrip.

Variable fromisoformat : string -> option Z.

#[local] Abbreviation timestamp_of' := (timestamp_of fromisoformat).
#[local] Abbreviation in_window' := (in_window fromisoformat).
#[local] Abbreviation window' := (window fromisoformat).
#[local] Abbreviation readable' := (Forall (fun entry => is_Some (timestamp_of' entry))).

Lemma timestamp_of_lookup (entry : snapshot) s t :
  entry !! "timestamp" = Some (VStr s) -> fromisoformat s = Some t ->
  timestamp_of' entry = Some t.
Proof. intros H1 H2. unfold timestamp_of. rewrite H1. exact H2. Qed.

Lemma filter_snoc {A} (p : A -> bool) (l : list A) x :
  p x = true -> List.filter p (l ++ [x]) = List.filter p l ++ [x].
Proof. intros H. rewrite List.filter_app. cbn [List.filter]. rewrite H. reflexivity. Qed.

(** The window of the directory an append leaves behind. *)
Lemma window_after_append dir metric_type data now days :
  readable' (stored dir metric_type) ->
  is_Some (timestamp_of' data) ->
  window' (snd (_append_to_history Writable dir metric_type data)) metric_type now days
  = Some (List.filter (in_window' (now - days * DAY))
            (last_n 1000 (stored dir metric_type ++ [data]))).
Proof.
  intros Hre Hts.
  assert (Hs := stored_append dir metric_type data).
  rewrite window_readable; rewrite ?Hs; [reflexivity| |].
  - right. rewrite append_writable. cbn [snd]. rewrite lookup_insert_eq.
    eexists _, _. split; [reflexivity | apply json_load_dump].
  - unfold last_n. apply Forall_drop. apply Forall_app. split; [exact Hre|].
    constructor; [exact Hts | constructor].
Qed.

(** C8: after a snapshot is appended on a writable medium, every window
    read back with a cutoff at or before its timestamp has that snapshot as
    its last entry, equal to what was appended: a field holding [None] still
    holds [None], any other value is the value that was stored, and no field
    is added.  The window can be read whenever the entries stored before all
    carry a timestamp that [fromisoformat] accepts. *)
Theorem C8_append_window_round_trip (dir : directory) (metric_type : string)
    (data : snapshot) (now days : Z) (s : string) (t : Z) :
  data !! "timestamp" = Some (VStr s) ->
  fromisoformat s = Some t ->
  now - days * DAY <= t ->
  let dir' := snd (_append_to_history Writable dir metric_type data) in
  fst (_append_to_history Writable dir metric_type data) = Returned ()
  /\ (forall w,
        window' dir' metric_type now days = Some w ->
        exists entry,
          last w = Some entry
          /\ entry = data
          /\ (forall key, data !! key = Some VNone -> entry !! key = Some VNone)
          /\ (forall key v, data !! key = Some v -> v <> VNone -> entry !! key = Some v)
          /\ (forall key, data !! key = None -> entry !! key = None))
  /\ (Forall (fun entry => is_Some (timestamp_of' entry)) (stored dir metric_type) ->
      exists w, window' dir' metric_type now days = Some w).
Proof.
  intros Hkey Hiso Hcut dir'.
  assert (Hts : timestamp_of' data = Some t) by (eapply timestamp_of_lookup; eassumption).
  split; [rewrite append_writable; reflexivity|]. split.
  - intros w Hw. apply window_inv in Hw as [_ ->].
    exists data. split; [|repeat split; auto].
    unfold dir'. rewrite stored_append.
    rewrite last_n_app by (simpl; lia). rewrite filter_snoc.
    + apply last_snoc.
    + rewrite (in_window_timestamp _ _ _ _ Hts). apply Z.leb_le. exact Hcut.
  - intros Hre. eexists. apply window_after_append; [exact Hre | eauto].
Qed.

End RoundTrip.

(** ** The per-family analyses *)

Section AnalysisFacts.

Variable fromisoformat : string -> option Z.

#[local] Abbreviation recent' := (recent fromisoformat).
#[local] Abbreviation battery := (_analyze_battery_trends fromisoformat).
#[local] Abbreviation storage := (_analyze_storage_trends fromisoformat).
#[local] Abbreviation performance := (_analyze_performance_trends fromisoformat).

(** Run an analysis body: case on every bound option and every test. *)
Ltac run_analysis :=
  repeat (cbn [default from_option id mbind option_bind];
          match goal with
          | |- context [match ?x with _ => _ end] => destruct x
          | |- context [mbind _ (mbind _ ?x)] => destruct x
          | |- context [mbind _ ?x] => destruct x
          end);
  cbn [default from_option id mbind option_bind].



Lemma analyze_performance_inv dir now days r :
  performance dir now days !! "thermal_performance" = Some r ->
  exists file history recent_history thermal_states,
    dir !! "performance_history.json" = Some file
    /\ json_load file = Some history
    /\ recent' now days history = Some recent_history
    /\ (3 <= length recent_history)%nat
    /\ column "thermal_state" truthy recent_history = Some thermal_states
    /\ thermal_states <> []
    /\ r = {| metric_name := "Thermal Performance";
              current_value := thermal_score_of thermal_states;
              trend := if Qgtb (thermal_score_of thermal_states) 80
                       then stable else degrading;
              prediction := None;
              confidence := 6 # 10;
              recommendations :=
                _get_thermal_recommendations (thermal_score_of thermal_states) |}.
Proof.
  unfold _analyze_performance_trends. intros H.
  destruct (dir !! "performance_history.json") as [file|] eqn:Hfile;
    [|rewrite lookup_empty in H; discriminate].
  destruct (json_load file) as [history|] eqn:Hload; cbn [default from_option id mbind option_bind] in H;
    [|rewrite lookup_empty in H; discriminate].
  destruct (recent' now days history) as [recent_history|] eqn:Hrecent;
    cbn [default from_option id mbind option_bind] in H; [|rewrite lookup_empty in H; discriminate].
  destruct (Nat.ltb_spec (length recent_history) 3) as [|Hlen];
    cbn [default from_option id mbind option_bind] in H; [rewrite lookup_empty in H; discriminate|].
  destruct (column "thermal_state" truthy recent_history) as [thermal_states|] eqn:Hcol;
    cbn [default from_option id mbind option_bind] in H; [|rewrite lookup_empty in H; discriminate].
  destruct thermal_states as [|s0 rest]; cbn [default from_option id mbind option_bind] in H;
    [rewrite lookup_empty in H; discriminate|].
  rewrite lookup_insert_eq in H. injection H as <-.
  exists file, history, recent_history, (s0 :: rest).
  repeat split; try reflexivity; try assumption. discriminate.
Qed.

Lemma analyze_battery_keys dir now days key :
  key <> "battery_level" -> key <> "battery_cycles" ->
  battery dir now days !! key = None.
Proof.
  intros H1 H2. unfold _analyze_battery_trends.
  run_analysis; rewrite ?lookup_insert_ne by congruence; apply lookup_empty.
Qed.

Lemma analyze_storage_keys dir now days key :
  key <> "storage_usage" -> storage dir now days !! key = None.
Proof.
  intros H1. unfold _analyze_storage_trends.
  run_analysis; rewrite ?lookup_insert_ne by congruence; apply lookup_empty.
Qed.







End AnalysisFacts.

(** ** The snapshot producer and zero readings *)

(** The battery producer keeps a reading of zero as the number zero. *)
Lemma battery_level_reading_kept (ideviceinfo : device) level_result cycle_result
    charging_result level cycle_count :
  ideviceinfo "BatteryCurrentCapacity" = Some level_result ->
  ideviceinfo "BatteryCycleCount" = Some cycle_result ->
  ideviceinfo "BatteryIsCharging" = Some charging_result ->
  int_reading level_result = Some (Some level) ->
  int_reading cycle_result = Some cycle_count ->
  _get_battery_metrics ideviceinfo !! "level" = Some (VInt level).
Proof.
  intros H1 H2 H3 Hl Hc. unfold _get_battery_metrics. rewrite H1, H2, H3.
  cbn [default from_option id mbind option_bind]. rewrite Hl.
  cbn [default from_option id mbind option_bind]. rewrite Hc.
  cbn [default from_option id mbind option_bind of_int].
  apply lookup_insert_eq.
Qed.

(** The storage producer does not: when the device reports zero bytes
    available, the available, used and usage fields are all [None]. *)
Lemma storage_zero_available_absent (ideviceinfo : device) total_result
    available_result total_bytes :
  ideviceinfo "TotalDiskCapacity" = Some total_result ->
  ideviceinfo "AmountDataAvailable" = Some available_result ->
  int_reading total_result = Some total_bytes ->
  int_reading available_result = Some (Some 0) ->
  _get_storage_metrics ideviceinfo !! "available_gb" = Some VNone
  /\ _get_storage_metrics ideviceinfo !! "used_gb" = Some VNone
  /\ _get_storage_metrics ideviceinfo !! "usage_percent" = Some VNone.
Proof.
  intros H1 H2 Ht Ha. unfold _get_storage_metrics. rewrite H1, H2.
  cbn [default from_option id mbind option_bind]. rewrite Ht.
  cbn [default from_option id mbind option_bind]. rewrite Ha.
  cbn [default from_option id mbind option_bind].
  assert (E : if_int (Some 0) = None) by reflexivity. rewrite !E.
  destruct (if_int total_bytes); cbn; repeat split; reflexivity.
Qed.

(** C4: on a device that reports a capacity of 64000000000 bytes and 0
    bytes available, both with return code 0, the reading parses to the
    integer 0, yet the stored snapshot has [None] for the available space,
    the used space and the usage, while the battery producer on the same
    device records its level of 0 as the integer 0. *)
Theorem C4_zero_available_recorded_absent :
  (Scenario.exhausted "AmountDataAvailable" ≫= int_reading) = Some (Some 0)
  /\ _get_storage_metrics Scenario.exhausted !! "available_gb" = Some VNone
  /\ _get_storage_metrics Scenario.exhausted !! "used_gb" = Some VNone
  /\ _get_storage_metrics Scenario.exhausted !! "usage_percent" = Some VNone
  /\ _get_storage_metrics Scenario.exhausted !! "total_gb" = Some (VFloat (298 # 5))
  /\ _get_battery_metrics Scenario.exhausted !! "level" = Some (VInt 0).
Proof. repeat split; vm_compute; reflexivity. Qed.

(** ** Concrete runs *)

(** The falling scenario end to end: four stored snapshots, their level
    series, and the battery-level result of the analysis. *)
Lemma falling_analysis :
  (window Iso8601.fromisoformat Scenario.falling "battery" Scenario.now 30
     ≫= column "level" is_not_None) = Some [VInt 80; VInt 75; VInt 70; VInt 65]
  /\ (trend <$> _analyze_battery_trends Iso8601.fromisoformat Scenario.falling
                  Scenario.now 30 !! "battery_level") = Some degrading
  /\ (prediction <$> _analyze_battery_trends Iso8601.fromisoformat Scenario.falling
                       Scenario.now 30 !! "battery_level") = Some (Some 60%Q).
Proof. repeat split; vm_compute; reflexivity. Qed.

(** Around the threshold: slopes 0.1, 0.10001 and -0.10001. *)
Lemma threshold_series :
  _calculate_trend [0; 1 # 10; 2 # 10]%Q = stable
  /\ _calculate_trend [0; - (1 # 10); - (2 # 10)]%Q = stable
  /\ _calculate_trend [0; 10001 # 100000; 20002 # 100000]%Q = improving
  /\ _calculate_trend [0; - (10001 # 100000); - (20002 # 100000)]%Q = degrading.
Proof. repeat split; reflexivity. Qed.


(** ** The theorems at concrete inputs *)


Lemma C2_append_cap_witness :
  stored (append_all "battery" Scenario.falling Scenario.long_run) "battery"
  = skipn 5 Scenario.long_run.
Proof.
  destruct (C2_append_cap Scenario.falling "battery" Scenario.long_run)
    as (_ & H & _).
  - vm_compute. lia.
  - exact H.
Defined.




Lemma C8_append_window_round_trip_witness :
  exists w entry,
    window Iso8601.fromisoformat
      (snd (_append_to_history Writable Scenario.falling "battery"
              (Scenario.battery_snapshot (Scenario.day "5") VNone)))
      "battery" Scenario.now 30 = Some w
    /\ last w = Some entry
    /\ entry !! "level" = Some VNone.
Proof.
  destruct (C8_append_window_round_trip Iso8601.fromisoformat Scenario.falling
              "battery" (Scenario.battery_snapshot (Scenario.day "5") VNone)
              Scenario.now 30 (Scenario.day "5") (Scenario.now - DAY))
    as (_ & Hlast & Hex).
  - vm_compute. reflexivity.
  - vm_compute. reflexivity.
  - vm_compute. discriminate.
  - destruct Hex as [w Hw].
    { apply (bool_decide_unpack
               (Forall (fun entry => is_Some (timestamp_of Iso8601.fromisoformat entry))
                       (stored Scenario.falling "battery"))).
      vm_compute. exact I. }
    destruct (Hlast w Hw) as (entry & He & _ & Hnone & _).
    exists w, entry. split; [exact Hw|]. split; [exact He|].
    apply Hnone. vm_compute. reflexivity.
Defined.

Lemma C9_window_monotone_witness :
  (exists w2,
     window Iso8601.fromisoformat Scenario.falling "battery" Scenario.now 30 = Some w2
     /\ skipn 2 Scenario.falling_history `sublist_of` w2)
  /\ window Iso8601.fromisoformat Scenario.corrupt "storage" Scenario.now 30 = Some []
  /\ window Iso8601.fromisoformat Scenario.falling "battery" Scenario.now 0 = Some [].
Proof.
  split; [|split].
  - destruct (proj1 (C9_window_monotone Iso8601.fromisoformat Scenario.falling
                       "battery" Scenario.now 3 30)
                (skipn 2 Scenario.falling_history))
      as (w2 & Hw2 & Hsub & _).
    + lia.
    + vm_compute. reflexivity.
    + exists w2. split; assumption.
  - apply (proj1 (proj2 (C9_window_monotone Iso8601.fromisoformat Scenario.corrupt
                           "storage" Scenario.now 30 30))).
    vm_compute. reflexivity.
  - apply (proj2 (proj2 (C9_window_monotone Iso8601.fromisoformat Scenario.falling
                           "battery" Scenario.now 0 0))
             (json_dump Scenario.falling_history) Scenario.falling_history).
    + vm_compute. reflexivity.
    + vm_compute. reflexivity.
    + intros entry Hin. apply list_elem_of_In in Hin. simpl in Hin.
      destruct Hin as [<-|[<-|[<-|[<-|[]]]]];
        eexists; (split; [vm_compute; reflexivity | vm_compute; reflexivity]).
Defined.


(** * Further properties of the analytics module *)

(** ** Series that lie on a line *)









(** ** What the snapshot producers return *)

(** Run a producer body: case on every query, reading and test. *)
Ltac run_producer :=
  repeat (cbn [default from_option id mbind option_bind fmap option_fmap option_map];
          match goal with
          | |- context [match ?x with _ => _ end] => destruct x
          | |- context [mbind _ (mbind _ ?x)] => destruct x
          | |- context [mbind _ ?x] => destruct x
          end);
  cbn [default from_option id mbind option_bind].

(** X4: whatever the device answers, and also when a query raises or a
    reading is not an integer, each producer returns a snapshot with exactly
    its own fields; a later [entry['level']] can never be a [KeyError]. *)
Theorem X4_producers_return_their_fields (ideviceinfo : device) :
  dom (_get_battery_metrics ideviceinfo)
    = ({[ "level"; "cycle_count"; "is_charging" ]} : gset string)
  /\ dom (_get_storage_metrics ideviceinfo)
    = ({[ "total_gb"; "used_gb"; "available_gb"; "usage_percent" ]} : gset string)
  /\ dom (_get_performance_metrics ideviceinfo)
    = ({[ "total_memory_gb"; "thermal_state" ]} : gset string).
Proof.
  split; [|split].
  - unfold _get_battery_metrics, int_reading.
    run_producer; rewrite !dom_insert_L, dom_singleton_L; set_solver.
  - unfold _get_storage_metrics, int_reading.
    destruct (ideviceinfo "TotalDiskCapacity") as [total_result|];
      [|cbn; rewrite !dom_insert_L, dom_singleton_L; set_solver].
    destruct (ideviceinfo "AmountDataAvailable") as [available_result|];
      [|cbn; rewrite !dom_insert_L, dom_singleton_L; set_solver].
    cbn [default from_option id mbind option_bind].
    destruct (if returncode total_result =? 0
              then Some <$> PyStr.int (PyStr.strip (stdout total_result))
              else Some None) as [total_bytes|];
      [|cbn; rewrite !dom_insert_L, dom_singleton_L; set_solver].
    cbn [default from_option id mbind option_bind].
    destruct (if returncode available_result =? 0
              then Some <$> PyStr.int (PyStr.strip (stdout available_result))
              else Some None) as [available_bytes|];
      cbn [default from_option id mbind option_bind];
      rewrite !dom_insert_L, dom_singleton_L; set_solver.
  - unfold _get_performance_metrics.
    run_producer; rewrite !dom_insert_L, dom_singleton_L; set_solver.
Qed.

Lemma int_reading_unparseable result :
  returncode result = 0 ->
  PyStr.int (PyStr.strip (stdout result)) = None ->
  int_reading result = None.
Proof. intros H1 H2. unfold int_reading. rewrite H1, H2. reflexivity. Qed.

Lemma int_reading_failed result :
  returncode result <> 0 -> int_reading result = Some None.
Proof.
  intros H. unfold int_reading. destruct (Z.eqb_spec (returncode result) 0); congruence.
Qed.

(** X5: in the battery producer one bad reading costs the whole snapshot:
    when either integer field answers with return code 0 and text that is
    not an integer, or when any of the three queries raises, all three fields
    are [None], also the ones that were read without trouble. *)
Theorem X5_battery_bad_reading_blanks_snapshot (ideviceinfo : device) :
  ((exists key result,
      (key = "BatteryCurrentCapacity" \/ key = "BatteryCycleCount")
      /\ ideviceinfo key = Some result
      /\ returncode result = 0
      /\ PyStr.int (PyStr.strip (stdout result)) = None)
   \/ (exists key,
         (key = "BatteryCurrentCapacity" \/ key = "BatteryCycleCount"
          \/ key = "BatteryIsCharging")
         /\ ideviceinfo key = None)) ->
  _get_battery_metrics ideviceinfo
  = {[ "level" := VNone; "cycle_count" := VNone; "is_charging" := VNone ]}.
Proof.
  intros H. unfold _get_battery_metrics.
  destruct (ideviceinfo "BatteryCurrentCapacity") as [level_result|] eqn:E1;
    [|reflexivity].
  destruct (ideviceinfo "BatteryCycleCount") as [cycle_result|] eqn:E2;
    [|reflexivity].
  destruct (ideviceinfo "BatteryIsCharging") as [charging_result|] eqn:E3;
    [|reflexivity].
  cbn [default from_option id mbind option_bind].
  destruct H as [(key & result & Hkey & Hres & Hrc & Hint)|(key & Hkey & Hnone)].
  - pose proof (int_reading_unparseable result Hrc Hint) as Hbad.
    destruct Hkey as [->| ->].
    + assert (result = level_result) as -> by congruence. rewrite Hbad. reflexivity.
    + assert (result = cycle_result) as -> by congruence. rewrite Hbad.
      destruct (int_reading level_result); reflexivity.
  - destruct Hkey as [->|[->| ->]]; congruence.
Qed.

(** X6: a query that fails with a non-zero return code costs its own field
    only: the level is [None] and the cycle count is kept as read. *)
Theorem X6_battery_failed_query_blanks_one_field (ideviceinfo : device)
    level_result cycle_result charging_result (cycle_count : Z) :
  ideviceinfo "BatteryCurrentCapacity" = Some level_result ->
  ideviceinfo "BatteryCycleCount" = Some cycle_result ->
  ideviceinfo "BatteryIsCharging" = Some charging_result ->
  returncode level_result <> 0 ->
  int_reading cycle_result = Some (Some cycle_count) ->
  _get_battery_metrics ideviceinfo !! "level" = Some VNone
  /\ _get_battery_metrics ideviceinfo !! "cycle_count" = Some (VInt cycle_count).
Proof.
  intros H1 H2 H3 Hrc Hc. unfold _get_battery_metrics. rewrite H1, H2, H3.
  cbn [default from_option id mbind option_bind].
  rewrite (int_reading_failed _ Hrc), Hc.
  cbn [default from_option id mbind option_bind of_int].
  split; [apply lookup_insert_eq|].
  rewrite lookup_insert_ne by discriminate. apply lookup_insert_eq.
Qed.


Lemma if_int_nonzero z : z <> 0 -> if_int (Some z) = Some z.
Proof.
  intros H. unfold if_int. cbn [mbind option_bind].
  destruct (Z.eqb_spec z 0); congruence.
Qed.



(** X8: the storage producer never divides by a zero or missing capacity:
    when the capacity query fails or reports 0, the capacity, the used space
    and the usage are [None]; the available space is still recorded when it
    was read and is not zero. *)
Theorem X8_storage_without_capacity (ideviceinfo : device)
    total_result available_result (total_bytes : option Z) (available_bytes : Z) :
  ideviceinfo "TotalDiskCapacity" = Some total_result ->
  ideviceinfo "AmountDataAvailable" = Some available_result ->
  int_reading total_result = Some total_bytes ->
  total_bytes = None \/ total_bytes = Some 0 ->
  int_reading available_result = Some (Some available_bytes) ->
  available_bytes <> 0 ->
  _get_storage_metrics ideviceinfo
  = {[ "total_gb" := VNone; "used_gb" := VNone;
       "available_gb" := VFloat (round2 (inject_Z available_bytes / GiB));
       "usage_percent" := VNone ]}.
Proof.
  intros H1 H2 Ht Hzero Ha Hne. unfold _get_storage_metrics. rewrite H1, H2.
  cbn [default from_option id mbind option_bind]. rewrite Ht.
  cbn [default from_option id mbind option_bind]. rewrite Ha.
  cbn [default from_option id mbind option_bind].
  rewrite (if_int_nonzero _ Hne).
  assert (E : if_int total_bytes = None) by (destruct Hzero as [->| ->]; reflexivity).
  rewrite E. reflexivity.
Qed.

(** ** More on the history store *)

Lemma string_length_append s t :
  String.length (s +:+ t) = (String.length s + String.length t)%nat.
Proof. induction s as [|c s IH]; simpl; [reflexivity | rewrite IH; reflexivity]. Qed.

Lemma string_append_cancel_r s1 s2 t : s1 +:+ t = s2 +:+ t -> s1 = s2.
Proof.
  revert s2. induction s1 as [|c1 s1 IH]; intros [|c2 s2] H.
  - reflexivity.
  - apply (f_equal String.length) in H.
    rewrite !string_length_append in H. simpl in H. lia.
  - apply (f_equal String.length) in H.
    rewrite !string_length_append in H. simpl in H. lia.
  - simpl in H. injection H as -> H. f_equal. apply IH. exact H.
Qed.

Lemma history_path_inj m1 m2 : history_path m1 = history_path m2 -> m1 = m2.
Proof. apply string_append_cancel_r. Qed.

Lemma append_lookup_other disk dir metric_type data file_name :
  file_name <> history_path metric_type ->
  snd (_append_to_history disk dir metric_type data) !! file_name = dir !! file_name.
Proof.
  intros Hne. unfold _append_to_history. cbv zeta.
  destruct disk; cbn [snd]; rewrite ?lookup_insert_ne by congruence; reflexivity.
Qed.

Lemma stored_append_other disk dir metric_type data other :
  other <> metric_type ->
  stored (snd (_append_to_history disk dir metric_type data)) other = stored dir other.
Proof.
  intros Hne. unfold stored. rewrite append_lookup_other; [reflexivity|].
  intros H. apply history_path_inj in H. congruence.
Qed.

(** X9: an append to one metric family, whether it succeeds or fails, leaves
    the file and the history of every other family as they were. *)
Theorem X9_append_leaves_other_families (disk : medium) (dir : directory)
    (metric_type other : string) (data : snapshot) :
  other <> metric_type ->
  snd (_append_to_history disk dir metric_type data) !! history_path other
    = dir !! history_path other
  /\ stored (snd (_append_to_history disk dir metric_type data)) other
     = stored dir other.
Proof.
  intros Hne. split.
  - apply append_lookup_other. intros H. apply history_path_inj in H. congruence.
  - apply stored_append_other. exact Hne.
Qed.

(** X10: one successful append keeps the order of the log and puts the new
    snapshot last.  Below 1000 stored entries nothing is dropped; from 1000
    entries on exactly the oldest entries go, leaving the newest 999 before
    the new one. *)
Theorem X10_append_is_fifo (dir : directory) (metric_type : string) (data : snapshot) :
  let before := stored dir metric_type in
  let after := stored (snd (_append_to_history Writable dir metric_type data))
                      metric_type in
  last after = Some data
  /\ ((length before < 1000)%nat -> after = before ++ [data])
  /\ ((1000 <= length before)%nat ->
      after = skipn (length before - 999) before ++ [data]
      /\ length after = 1000%nat).
Proof.
  cbv zeta. rewrite stored_append.
  rewrite last_n_app by (simpl; lia). cbn [length].
  replace (1000 - 1)%nat with 999%nat by lia.
  split; [apply last_snoc|]. split.
  - intros H. rewrite last_n_all by lia. reflexivity.
  - intros H. split; [reflexivity|].
    rewrite length_app, length_last_n. cbn [length]. lia.
Qed.

(** X11: a failed write.  On a medium that refuses the write the directory
    is unchanged.  On a medium that fills up part-way the old content is
    gone, because the file is opened for writing before the new content is
    complete: the next successful append starts a fresh log of one entry. *)
Theorem X11_failed_write (dir : directory) (metric_type : string)
    (data next : snapshot) :
  snd (_append_to_history ReadOnly dir metric_type data) = dir
  /\ stored (snd (_append_to_history Full dir metric_type data)) metric_type = []
  /\ stored (snd (_append_to_history Writable
                    (snd (_append_to_history Full dir metric_type data))
                    metric_type next)) metric_type = [next].
Proof.
  split; [reflexivity|].
  assert (E : stored (snd (_append_to_history Full dir metric_type data)) metric_type = []).
  { unfold _append_to_history, stored. cbv zeta. cbn [snd].
    rewrite lookup_insert_eq. reflexivity. }
  split; [exact E|]. rewrite stored_append, E. reflexivity.
Qed.

Lemma stored_append_all_any metric_type dir snapshots :
  stored (append_all metric_type dir snapshots) metric_type
  = match snapshots with
    | [] => stored dir metric_type
    | _ => last_n 1000 (stored dir metric_type ++ snapshots)
    end.
Proof.
  destruct snapshots as [|s rest]; [reflexivity|].
  apply stored_append_all. discriminate.
Qed.

(** X12: as long as the log stays within 1000 entries, a run of appends
    loses nothing: the stored history is the old one followed by all the
    appended snapshots in order. *)
Theorem X12_appends_below_cap_keep_everything (dir : directory)
    (metric_type : string) (snapshots : list snapshot) :
  (length (stored dir metric_type) + length snapshots <= 1000)%nat ->
  stored (append_all metric_type dir snapshots) metric_type
  = stored dir metric_type ++ snapshots.
Proof.
  intros H. rewrite stored_append_all_any. destruct snapshots as [|s rest].
  - rewrite app_nil_r. reflexivity.
  - apply last_n_all. rewrite length_app. exact H.
Qed.

(** ** Collecting, then analysing *)

Lemma append_writable_lookup dir metric_type data :
  snd (_append_to_history Writable dir metric_type data) !! history_path metric_type
  = Some (json_dump (last_n 1000 (stored dir metric_type ++ [data]))).
Proof. rewrite append_writable. cbn [snd]. apply lookup_insert_eq. Qed.

Lemma stored_append_last dir metric_type data :
  last (stored (snd (_append_to_history Writable dir metric_type data)) metric_type)
  = Some data.
Proof.
  rewrite stored_append, last_n_app by (simpl; lia). apply last_snoc.
Qed.

(** A successful collection is three successful appends. *)
Lemma collect_writable timestamp ideviceinfo dir :
  let battery_data :=
    <["timestamp" := VStr timestamp]> (_get_battery_metrics ideviceinfo) in
  let storage_data :=
    <["timestamp" := VStr timestamp]> (_get_storage_metrics ideviceinfo) in
  let performance_data :=
    <["timestamp" := VStr timestamp]> (_get_performance_metrics ideviceinfo) in
  collect_historical_data timestamp ideviceinfo Writable dir
  = (Returned {[ "battery" := battery_data; "storage" := storage_data;
                 "performance" := performance_data ]},
     snd (_append_to_history Writable
            (snd (_append_to_history Writable
                    (snd (_append_to_history Writable dir "battery" battery_data))
                    "storage" storage_data))
            "performance" performance_data)).
Proof.
  cbv zeta. unfold collect_historical_data. cbv zeta.
  repeat (rewrite append_writable; cbn [snd]). reflexivity.
Qed.

Lemma collect_lookup timestamp ideviceinfo dir :
  let dir' := snd (collect_historical_data timestamp ideviceinfo Writable dir) in
  dir' !! history_path "battery"
    = Some (json_dump (last_n 1000
              (stored dir "battery"
               ++ [<["timestamp" := VStr timestamp]> (_get_battery_metrics ideviceinfo)])))
  /\ dir' !! history_path "storage"
    = Some (json_dump (last_n 1000
              (stored dir "storage"
               ++ [<["timestamp" := VStr timestamp]> (_get_storage_metrics ideviceinfo)])))
  /\ dir' !! history_path "performance"
    = Some (json_dump (last_n 1000
              (stored dir "performance"
               ++ [<["timestamp" := VStr timestamp]>
                     (_get_performance_metrics ideviceinfo)]))).
Proof.
  cbv zeta. rewrite collect_writable. cbn [snd]. split; [|split].
  - rewrite !append_lookup_other
      by (intros H; apply history_path_inj in H; discriminate).
    apply append_writable_lookup.
  - rewrite append_lookup_other
      by (intros H; apply history_path_inj in H; discriminate).
    rewrite append_writable_lookup. rewrite stored_append_other by discriminate.
    reflexivity.
  - rewrite append_writable_lookup. rewrite !stored_append_other by discriminate.
    reflexivity.
Qed.

Lemma stored_of_lookup_dump dir metric_type history :
  dir !! history_path metric_type = Some (json_dump history) ->
  stored dir metric_type = history.
Proof. intros H. unfold stored. rewrite H, json_load_dump. reflexivity. Qed.

Lemma stored_collect timestamp ideviceinfo dir :
  let dir' := snd (collect_historical_data timestamp ideviceinfo Writable dir) in
  stored dir' "battery"
    = last_n 1000
        (stored dir "battery"
         ++ [<["timestamp" := VStr timestamp]> (_get_battery_metrics ideviceinfo)])
  /\ stored dir' "storage"
    = last_n 1000
        (stored dir "storage"
         ++ [<["timestamp" := VStr timestamp]> (_get_storage_metrics ideviceinfo)])
  /\ stored dir' "performance"
    = last_n 1000
        (stored dir "performance"
         ++ [<["timestamp" := VStr timestamp]> (_get_performance_metrics ideviceinfo)]).
Proof.
  destruct (collect_lookup timestamp ideviceinfo dir) as (H1 & H2 & H3).
  cbv zeta in *. repeat split; apply stored_of_lookup_dump; assumption.
Qed.

(** X13: a successful collection returns one snapshot per family; each
    returned snapshot carries the collection's timestamp and is the last
    entry of its family's stored history. *)
Theorem X13_collect_stores_what_it_returns (timestamp : string)
    (ideviceinfo : device) (dir : directory) :
  exists data,
    fst (collect_historical_data timestamp ideviceinfo Writable dir) = Returned data
    /\ dom data = ({[ "battery"; "storage"; "performance" ]} : gset string)
    /\ forall family entry,
         data !! family = Some entry ->
         entry !! "timestamp" = Some (VStr timestamp)
         /\ last (stored (snd (collect_historical_data timestamp ideviceinfo
                                 Writable dir)) family) = Some entry.
Proof.
  destruct (stored_collect timestamp ideviceinfo dir) as (H1 & H2 & H3).
  cbv zeta in *. rewrite collect_writable in *. cbn [fst snd] in *.
  eexists. split; [reflexivity|]. split.
  - rewrite !dom_insert_L, dom_singleton_L. set_solver.
  - intros family entry Hlook.
    apply lookup_insert_Some in Hlook as [[<- <-]|[_ Hlook]].
    { split; [apply lookup_insert_eq|]. rewrite H1, last_n_app by (simpl; lia).
      apply last_snoc. }
    apply lookup_insert_Some in Hlook as [[<- <-]|[_ Hlook]].
    { split; [apply lookup_insert_eq|]. rewrite H2, last_n_app by (simpl; lia).
      apply last_snoc. }
    apply lookup_singleton_Some in Hlook as [<- <-].
    split; [apply lookup_insert_eq|]. rewrite H3, last_n_app by (simpl; lia).
    apply last_snoc.
Qed.

Section TrendFacts.

Variable fromisoformat : string -> option Z.

#[local] Abbreviation timestamp_of_ := (timestamp_of fromisoformat).
#[local] Abbreviation window_ := (window fromisoformat).
#[local] Abbreviation recent_ := (recent fromisoformat).
#[local] Abbreviation battery_ := (_analyze_battery_trends fromisoformat).
#[local] Abbreviation storage_ := (_analyze_storage_trends fromisoformat).
#[local] Abbreviation performance_ := (_analyze_performance_trends fromisoformat).
#[local] Abbreviation trends_ := (analyze_trends fromisoformat).

Ltac run_body :=
  repeat (cbn [default from_option id mbind option_bind];
          match goal with
          | |- context [match ?x with _ => _ end] => destruct x
          | |- context [mbind _ (mbind _ ?x)] => destruct x
          | |- context [mbind _ ?x] => destruct x
          end);
  cbn [default from_option id mbind option_bind].

(** Each analysis is empty unless its window can be read and holds three
    snapshots. *)
Lemma analyses_need_window dir now days :
  ((forall w, window_ dir "battery" now days = Some w -> (length w < 3)%nat) ->
   battery_ dir now days = ∅)
  /\ ((forall w, window_ dir "storage" now days = Some w -> (length w < 3)%nat) ->
      storage_ dir now days = ∅)
  /\ ((forall w, window_ dir "performance" now days = Some w -> (length w < 3)%nat) ->
      performance_ dir now days = ∅).
Proof.
  unfold window, _analyze_battery_trends, _analyze_storage_trends,
    _analyze_performance_trends.
  change (history_path "battery") with "battery_history.json".
  change (history_path "storage") with "storage_history.json".
  change (history_path "performance") with "performance_history.json".
  split; [|split]; intros H.
  - destruct (dir !! "battery_history.json") as [file|]; [|reflexivity].
    destruct (json_load file) as [history|]; [|reflexivity].
    cbn [default from_option id mbind option_bind] in *.
    destruct (recent_ now days history) as [w|]; [|reflexivity].
    cbn [default from_option id mbind option_bind].
    specialize (H w eq_refl).
    destruct (Nat.ltb_spec (length w) 3); [reflexivity | lia].
  - destruct (dir !! "storage_history.json") as [file|]; [|reflexivity].
    destruct (json_load file) as [history|]; [|reflexivity].
    cbn [default from_option id mbind option_bind] in *.
    destruct (recent_ now days history) as [w|]; [|reflexivity].
    cbn [default from_option id mbind option_bind].
    specialize (H w eq_refl).
    destruct (Nat.ltb_spec (length w) 3); [reflexivity | lia].
  - destruct (dir !! "performance_history.json") as [file|]; [|reflexivity].
    destruct (json_load file) as [history|]; [|reflexivity].
    cbn [default from_option id mbind option_bind] in *.
    destruct (recent_ now days history) as [w|]; [|reflexivity].
    cbn [default from_option id mbind option_bind].
    specialize (H w eq_refl).
    destruct (Nat.ltb_spec (length w) 3); [reflexivity | lia].
Qed.

Lemma window_length_le dir metric_type now days w :
  window_ dir metric_type now days = Some w ->
  (length w <= length (stored dir metric_type))%nat.
Proof.
  intros H. apply window_inv in H as [_ ->]. apply List.filter_length_le.
Qed.

Lemma analyses_need_three_stored dir now days :
  ((length (stored dir "battery") < 3)%nat -> battery_ dir now days = ∅)
  /\ ((length (stored dir "storage") < 3)%nat -> storage_ dir now days = ∅)
  /\ ((length (stored dir "performance") < 3)%nat -> performance_ dir now days = ∅).
Proof.
  destruct (analyses_need_window dir now days) as (H1 & H2 & H3).
  split; [|split]; intros Hlen; [apply H1 | apply H2 | apply H3];
    intros w Hw; apply window_length_le in Hw; lia.
Qed.

(** X14: trends need three stored snapshots.  When each of the three
    histories holds fewer than three entries, the result of [analyze_trends]
    is empty for every date and every number of days; starting without any
    history, this is so after one successful collection and after two. *)
Theorem X14_no_trend_before_three_snapshots (dir : directory) (now days : Z) :
  ((length (stored dir "battery") < 3)%nat ->
   (length (stored dir "storage") < 3)%nat ->
   (length (stored dir "performance") < 3)%nat ->
   trends_ dir now days = ∅)
  /\ (stored dir "battery" = [] -> stored dir "storage" = [] ->
      stored dir "performance" = [] ->
      forall timestamp1 timestamp2 device1 device2,
        let dir1 := snd (collect_historical_data timestamp1 device1 Writable dir) in
        let dir2 := snd (collect_historical_data timestamp2 device2 Writable dir1) in
        trends_ dir1 now days = ∅ /\ trends_ dir2 now days = ∅).
Proof.
  assert (Hsmall : forall d,
            (length (stored d "battery") < 3)%nat ->
            (length (stored d "storage") < 3)%nat ->
            (length (stored d "performance") < 3)%nat ->
            trends_ d now days = ∅).
  { intros d Hb Hs Hp. unfold analyze_trends.
    destruct (analyses_need_three_stored d now days) as (H1 & H2 & H3).
    rewrite (H1 Hb), (H2 Hs), (H3 Hp). rewrite !(left_id_L ∅ (∪)). reflexivity. }
  split; [apply Hsmall|].
  intros Eb Es Ep timestamp1 timestamp2 device1 device2 dir1 dir2.
  destruct (stored_collect timestamp1 device1 dir) as (B1 & S1 & P1).
  destruct (stored_collect timestamp2 device2 dir1) as (B2 & S2 & P2).
  cbv zeta in *. fold dir1 in B1, S1, P1, B2, S2, P2. fold dir2 in B2, S2, P2.
  rewrite Eb in B1. rewrite Es in S1. rewrite Ep in P1.
  rewrite B1 in B2. rewrite S1 in S2. rewrite P1 in P2.
  split; apply Hsmall;
    rewrite ?B1, ?S1, ?P1, ?B2, ?S2, ?P2;
    repeat first [rewrite length_last_n | rewrite length_app];
    cbn [length]; lia.
Qed.

Lemma since_unreadable cutoff history :
  Exists (fun entry => timestamp_of_ entry = None) history ->
  since fromisoformat cutoff history = None.
Proof.
  intros Hex. destruct (since fromisoformat cutoff history) as [kept|] eqn:E;
    [|reflexivity].
  apply since_inv in E as [Hre _]. exfalso.
  apply Exists_exists in Hex as (entry & Hin & Hnone).
  rewrite Forall_forall in Hre. destruct (Hre entry Hin) as [t Ht]. congruence.
Qed.

(** X15: one bad entry empties a family's analysis.  When the history file
    cannot be loaded, or when any one entry of it, inside the period asked
    for or not, has no timestamp that [fromisoformat] accepts, the analysis
    of that family returns the empty result for every date and every number
    of days. *)
Theorem X15_unreadable_entry_empties_analysis (dir : directory) (now days : Z)
    (file : content) :
  json_load file = None
  \/ (exists history,
        json_load file = Some history
        /\ Exists (fun entry => timestamp_of_ entry = None) history) ->
  (dir !! "battery_history.json" = Some file -> battery_ dir now days = ∅)
  /\ (dir !! "storage_history.json" = Some file -> storage_ dir now days = ∅)
  /\ (dir !! "performance_history.json" = Some file -> performance_ dir now days = ∅).
Proof.
  intros Hbad.
  assert (Hwin : forall metric_type,
            dir !! history_path metric_type = Some file ->
            window_ dir metric_type now days = None).
  { intros metric_type Hfile. unfold window. rewrite Hfile.
    destruct Hbad as [->|(history & -> & Hex)]; [reflexivity|].
    cbn [mbind option_bind]. unfold recent. apply since_unreadable. exact Hex. }
  destruct (analyses_need_window dir now days) as (H1 & H2 & H3).
  split; [|split]; intros Hfile; [apply H1 | apply H2 | apply H3]; intros w Hw;
    [rewrite (Hwin "battery" Hfile) in Hw | rewrite (Hwin "storage" Hfile) in Hw
     | rewrite (Hwin "performance" Hfile) in Hw]; discriminate.
Qed.

Lemma analyze_performance_keys dir now days key :
  key <> "thermal_performance" -> performance_ dir now days !! key = None.
Proof.
  intros H1. unfold _analyze_performance_trends.
  run_body; rewrite ?lookup_insert_ne by congruence; apply lookup_empty.
Qed.

Lemma union_lookup_l {A} (m1 m2 : gmap string A) key :
  m2 !! key = None -> (m1 ∪ m2) !! key = m1 !! key.
Proof. intros H. rewrite lookup_union, H. destruct (m1 !! key); reflexivity. Qed.

Lemma union_lookup_r {A} (m1 m2 : gmap string A) key :
  m1 !! key = None -> (m1 ∪ m2) !! key = m2 !! key.
Proof. intros H. rewrite lookup_union, H. destruct (m2 !! key); reflexivity. Qed.

(** X16: [analyze_trends] only merges.  Each of its four possible entries is
    the entry of the family that computes it, no family overwrites another,
    and no other key is ever present. *)
Theorem X16_analyze_trends_merges_families (dir : directory) (now days : Z) :
  trends_ dir now days !! "battery_level" = battery_ dir now days !! "battery_level"
  /\ trends_ dir now days !! "battery_cycles"
     = battery_ dir now days !! "battery_cycles"
  /\ trends_ dir now days !! "storage_usage"
     = storage_ dir now days !! "storage_usage"
  /\ trends_ dir now days !! "thermal_performance"
     = performance_ dir now days !! "thermal_performance"
  /\ dom (trends_ dir now days)
     ⊆ ({[ "battery_level"; "battery_cycles"; "storage_usage";
           "thermal_performance" ]} : gset string).
Proof.
  unfold analyze_trends. repeat split.
  - rewrite union_lookup_r by (apply analyze_performance_keys; discriminate).
    apply union_lookup_r. apply analyze_storage_keys. discriminate.
  - rewrite union_lookup_r by (apply analyze_performance_keys; discriminate).
    apply union_lookup_r. apply analyze_storage_keys. discriminate.
  - rewrite union_lookup_r by (apply analyze_performance_keys; discriminate).
    apply union_lookup_l. apply analyze_battery_keys; discriminate.
  - apply union_lookup_l. rewrite union_lookup_l.
    + apply analyze_storage_keys. discriminate.
    + apply analyze_battery_keys; discriminate.
  - intros key Hkey. apply elem_of_dom in Hkey.
    destruct (decide (key = "thermal_performance")) as [->|N1]; [set_solver|].
    destruct (decide (key = "storage_usage")) as [->|N2]; [set_solver|].
    destruct (decide (key = "battery_level")) as [->|N3]; [set_solver|].
    destruct (decide (key = "battery_cycles")) as [->|N4]; [set_solver|].
    exfalso. rewrite !lookup_union in Hkey.
    rewrite analyze_performance_keys, analyze_storage_keys, analyze_battery_keys
      in Hkey by assumption.
    destruct Hkey as [? [=]].
Qed.

(** X17: the advice of a thermal result agrees with its trend only in one
    direction.  A [stable] thermal result never carries advice, and advice
    appears exactly when the score is below 70; so a score from 70 to 80 is
    reported as [degrading] without any advice. *)
Theorem X17_thermal_advice_and_trend (dir : directory) (now days : Z)
    (r : AnalyticsResult) :
  performance_ dir now days !! "thermal_performance" = Some r ->
  (trend r = stable -> recommendations r = [])
  /\ (recommendations r <> [] <-> (current_value r < 70)%Q)
  /\ ((70 <= current_value r <= 80)%Q ->
      trend r = degrading /\ recommendations r = []).
Proof.
  intros H. apply analyze_performance_inv in H
    as (file & history & recent_history & thermal_states & _ & _ & _ & _ & _ & _ & ->).
  cbn [trend recommendations current_value].
  set (score := thermal_score_of thermal_states). clearbody score.
  unfold _get_thermal_recommendations.
  destruct (Qgtb score 80) eqn:G; destruct (Qltb score 70) eqn:L;
    try apply Qgtb_spec in G; try apply Qgtb_false in G;
    try apply Qltb_spec in L; try apply Qltb_false in L;
    (split; [|split]);
    try (intros; reflexivity); try (intros; discriminate); try (intros; lra);
    try (split; intros; try discriminate; try congruence; lra);
    try (intros [? ?]; split; try reflexivity; lra).
Qed.

Lemma predict_next_value_None values :
  _predict_next_value values = None <-> (length values < 3)%nat.
Proof.
  split; [|apply predict_next_value_short].
  intros H. destruct (Nat.lt_ge_cases (length values) 3) as [|Hge]; [assumption|].
  rewrite predict_next_value_long in H by exact Hge. discriminate.
Qed.

Lemma window_of_file dir metric_type now days file history :
  dir !! history_path metric_type = Some file ->
  json_load file = Some history ->
  window_ dir metric_type now days = recent_ now days history.
Proof. intros H1 H2. unfold window. rewrite H1, H2. reflexivity. Qed.


(** X19: the battery-cycles result needs two readings.  When one is
    reported, the window holds at least three snapshots and at least two of
    them have a cycle count; the current value is the last of these, and the
    forecast is absent exactly when there are only two. *)
Theorem X19_battery_cycles_result (dir : directory) (now days : Z)
    (r : AnalyticsResult) :
  battery_ dir now days !! "battery_cycles" = Some r ->
  exists recent_history cycle_counts values,
    window_ dir "battery" now days = Some recent_history
    /\ (3 <= length recent_history)%nat
    /\ column "cycle_count" is_not_None recent_history = Some cycle_counts
    /\ numbers cycle_counts = Some values
    /\ (2 <= length cycle_counts)%nat
    /\ current_value r = List.last values 0%Q
    /\ trend r = _calculate_trend values
    /\ prediction r = _predict_next_value values
    /\ (prediction r = None <-> length cycle_counts = 2%nat).
Proof.
  intros H. unfold _analyze_battery_trends in H.
  destruct (dir !! "battery_history.json") as [file|] eqn:Hfile;
    [|rewrite lookup_empty in H; discriminate].
  destruct (json_load file) as [history|] eqn:Hload;
    cbn [default from_option id mbind option_bind] in H;
    [|rewrite lookup_empty in H; discriminate].
  destruct (recent_ now days history) as [recent_history|] eqn:Hrecent;
    cbn [default from_option id mbind option_bind] in H;
    [|rewrite lookup_empty in H; discriminate].
  destruct (Nat.ltb_spec (length recent_history) 3) as [|Hlen];
    cbn [default from_option id mbind option_bind] in H;
    [rewrite lookup_empty in H; discriminate|].
  destruct (column "level" is_not_None recent_history) as [levels|];
    cbn [default from_option id mbind option_bind] in H;
    [|rewrite lookup_empty in H; discriminate].
  destruct (column "cycle_count" is_not_None recent_history)
    as [cycle_counts|] eqn:Hcol;
    cbn [default from_option id mbind option_bind] in H;
    [|rewrite lookup_empty in H; discriminate].
  assert (Hcyc : exists values,
            (1 < length cycle_counts)%nat /\ numbers cycle_counts = Some values
            /\ r = {| metric_name := "Battery Cycles";
                      current_value := List.last values 0%Q;
                      trend := _calculate_trend values;
                      prediction := _predict_next_value values;
                      confidence := 8 # 10;
                      recommendations :=
                        _get_cycle_recommendations (List.last values 0%Q) |}).
  { destruct levels as [|l0 lrest];
      [|destruct (numbers (l0 :: lrest)) as [lvalues|]];
      cbn [default from_option id mbind option_bind] in H;
      try (rewrite lookup_empty in H; discriminate);
      (destruct (Nat.ltb_spec 1 (length cycle_counts)) as [Hc|Hc];
       [destruct (numbers cycle_counts) as [values|];
        cbn [default from_option id mbind option_bind] in H;
        [rewrite lookup_insert_eq in H; injection H as <-; eauto
        |rewrite lookup_empty in H; discriminate]
       |cbn [default from_option id mbind option_bind] in H;
        rewrite ?lookup_insert_ne in H by discriminate;
        rewrite lookup_empty in H; discriminate]). }
  destruct Hcyc as (values & Hc & Hnum & ->).
  exists recent_history, cycle_counts, values.
  cbn [current_value trend prediction].
  pose proof (length_mapM _ _ _ Hnum) as Hl.
  split; [rewrite (window_of_file dir "battery" now days file history Hfile Hload);
          exact Hrecent|].
  repeat split; try assumption; try reflexivity; try lia.
  - intros Hp. apply predict_next_value_None in Hp. lia.
  - intros Hp. apply predict_next_value_None. lia.
Qed.




(** X21: the advice tables escalate.  The urgent message of a table is never
    given without the basic messages of that table, the cycle advice has
    zero, three or four messages, and the charge-soon message depends on the
    level alone. *)
Theorem X21_advice_escalates (trend : trend_label) (x : Q) :
  (In "Battery replacement strongly recommended" (_get_cycle_recommendations x) ->
   In "Battery cycle count is high - consider replacement"
      (_get_cycle_recommendations x))
  /\ (length (_get_cycle_recommendations x) = 0%nat
      \/ length (_get_cycle_recommendations x) = 3%nat
      \/ length (_get_cycle_recommendations x) = 4%nat)
  /\ (In "Critical storage level - immediate cleanup needed"
         (_get_storage_recommendations trend x) ->
      In "Storage usage increasing rapidly" (_get_storage_recommendations trend x))
  /\ (In "Charge device soon to avoid shutdown"
         (_get_battery_recommendations trend x) <-> (x < 20)%Q).
Proof.
  unfold _get_cycle_recommendations, _get_storage_recommendations,
    _get_battery_recommendations.
  split; [|split; [|split]].
  - destruct (Qgtb x 500) eqn:G5; [intros _; left; reflexivity|].
    destruct (Qgtb x 1000) eqn:G10; [|intros []].
    apply Qgtb_false in G5. apply Qgtb_spec in G10. lra.
  - destruct (Qgtb x 500) eqn:G5; destruct (Qgtb x 1000) eqn:G10; cbn; auto.
    apply Qgtb_false in G5. apply Qgtb_spec in G10. lra.
  - destruct (Qgtb x 85) eqn:G85.
    + rewrite orb_true_r. intros _. left. reflexivity.
    + destruct (Qgtb x 95) eqn:G95.
      * apply Qgtb_false in G85. apply Qgtb_spec in G95. lra.
      * rewrite app_nil_r. destruct trend; cbn; tauto.
  - destruct (Qltb x 20) eqn:L.
    + apply Qltb_spec in L. split; [intros _; exact L|]. intros _.
      apply in_or_app. right. left. reflexivity.
    + apply Qltb_false in L. rewrite app_nil_r. split; [|lra].
      destruct trend; cbn; intros H; repeat destruct H as [H|H]; try discriminate;
        try contradiction.
Qed.


End TrendFacts.

(** X23: in the performance producer an unreadable memory figure costs the
    thermal state as well, while a failed memory query costs the memory
    field only and the thermal state is recorded, stripped of white space. *)
Theorem X23_performance_bad_memory_reading (ideviceinfo : device)
    memory_result thermal_result :
  ideviceinfo "TotalSystemAvailable" = Some memory_result ->
  ideviceinfo "ThermalState" = Some thermal_result ->
  returncode thermal_result = 0 ->
  (returncode memory_result = 0 ->
   PyStr.int (PyStr.strip (stdout memory_result)) = None ->
   _get_performance_metrics ideviceinfo
   = {[ "total_memory_gb" := VNone; "thermal_state" := VNone ]})
  /\ (returncode memory_result <> 0 ->
      _get_performance_metrics ideviceinfo
      = {[ "total_memory_gb" := VNone;
           "thermal_state" := VStr (PyStr.strip (stdout thermal_result)) ]}).
Proof.
  intros H1 H2 Hth. unfold _get_performance_metrics. rewrite H1, H2.
  cbn [default from_option id mbind option_bind]. split.
  - intros Hrc Hint. rewrite Hrc, Hint. reflexivity.
  - intros Hrc. destruct (Z.eqb_spec (returncode memory_result) 0); [congruence|].
    cbn [default from_option id mbind option_bind]. rewrite Hth. reflexivity.
Qed.

(** ** The further properties at concrete inputs *)



Lemma X5_battery_bad_reading_blanks_snapshot_witness :
  _get_battery_metrics Scenario.garbled_cycles
  = {[ "level" := VNone; "cycle_count" := VNone; "is_charging" := VNone ]}.
Proof.
  apply X5_battery_bad_reading_blanks_snapshot. left.
  exists "BatteryCycleCount", {| returncode := 0; stdout := "n/a" |}.
  split; [right; reflexivity|]. repeat split; vm_compute; reflexivity.
Defined.

Lemma X6_battery_failed_query_blanks_one_field_witness :
  _get_battery_metrics Scenario.no_level !! "level" = Some VNone
  /\ _get_battery_metrics Scenario.no_level !! "cycle_count" = Some (VInt 412).
Proof.
  apply (X6_battery_failed_query_blanks_one_field Scenario.no_level
           {| returncode := 1; stdout := "" |}
           {| returncode := 0; stdout := "412" |}
           {| returncode := 0; stdout := "false" |}).
  - reflexivity.
  - reflexivity.
  - reflexivity.
  - discriminate.
  - vm_compute. reflexivity.
Defined.


Lemma X8_storage_without_capacity_witness :
  _get_storage_metrics Scenario.no_capacity !! "usage_percent" = Some VNone
  /\ _get_storage_metrics Scenario.no_capacity !! "available_gb"
     = Some (VFloat (round2 (inject_Z 16000000000 / GiB))).
Proof.
  rewrite (X8_storage_without_capacity Scenario.no_capacity
             {| returncode := 1; stdout := "" |}
             {| returncode := 0; stdout := "16000000000" |} None 16000000000).
  - split; reflexivity.
  - reflexivity.
  - reflexivity.
  - reflexivity.
  - left. reflexivity.
  - vm_compute. reflexivity.
  - discriminate.
Defined.

Lemma X9_append_leaves_other_families_witness :
  stored (snd (_append_to_history Full Scenario.falling "storage"
                 (Scenario.storage_snapshot (Scenario.day "5") 70)))
         "battery"
  = stored Scenario.falling "battery".
Proof.
  apply (X9_append_leaves_other_families Full Scenario.falling "storage" "battery").
  discriminate.
Defined.

Lemma X10_append_is_fifo_witness :
  stored (snd (_append_to_history Writable Scenario.falling "battery"
                 (Scenario.battery_snapshot (Scenario.day "5") (VInt 60))))
         "battery"
  = stored Scenario.falling "battery"
    ++ [Scenario.battery_snapshot (Scenario.day "5") (VInt 60)]
  /\ length (stored (snd (_append_to_history Writable
                            (append_all "battery" ∅ Scenario.long_run) "battery"
                            (Scenario.battery_snapshot (Scenario.day "5") (VInt 60))))
                    "battery") = 1000%nat.
Proof.
  split.
  - destruct (X10_append_is_fifo Scenario.falling "battery"
                (Scenario.battery_snapshot (Scenario.day "5") (VInt 60)))
      as (_ & H & _).
    apply H. assert (E : stored Scenario.falling "battery" = Scenario.falling_history)
      by (vm_compute; reflexivity).
    rewrite E. simpl. lia.
  - destruct (X10_append_is_fifo (append_all "battery" ∅ Scenario.long_run) "battery"
                (Scenario.battery_snapshot (Scenario.day "5") (VInt 60)))
      as (_ & _ & H).
    apply H. rewrite stored_append_all by discriminate. rewrite length_last_n.
    unfold Scenario.long_run. rewrite length_app, length_map, length_seq. lia.
Defined.

Lemma X12_appends_below_cap_keep_everything_witness :
  stored (append_all "battery" Scenario.corrupt Scenario.falling_history) "battery"
  = stored Scenario.corrupt "battery" ++ Scenario.falling_history.
Proof.
  apply X12_appends_below_cap_keep_everything.
  assert (E : stored Scenario.corrupt "battery" = []) by (vm_compute; reflexivity).
  rewrite E. simpl. lia.
Defined.

Lemma X14_no_trend_before_three_snapshots_witness :
  analyze_trends Iso8601.fromisoformat Scenario.corrupt Scenario.now 30 = ∅
  /\ analyze_trends Iso8601.fromisoformat
       (snd (collect_historical_data (Scenario.day "2") Scenario.roomy Writable
               (snd (collect_historical_data (Scenario.day "1") Scenario.exhausted
                       Writable Scenario.corrupt))))
       Scenario.now 30 = ∅.
Proof.
  destruct (X14_no_trend_before_three_snapshots Iso8601.fromisoformat
              Scenario.corrupt Scenario.now 30) as [H1 H2].
  split.
  - apply H1; vm_compute; lia.
  - apply (H2 eq_refl eq_refl eq_refl (Scenario.day "1") (Scenario.day "2")
             Scenario.exhausted Scenario.roomy).
Defined.

Lemma X15_unreadable_entry_empties_analysis_witness :
  _analyze_battery_trends Iso8601.fromisoformat Scenario.undated Scenario.now 30 = ∅.
Proof.
  refine (proj1 (X15_unreadable_entry_empties_analysis Iso8601.fromisoformat
                   Scenario.undated Scenario.now 30
                   (json_dump Scenario.undated_history) _) _).
  - right. exists Scenario.undated_history. split; [apply json_load_dump|].
    apply Exists_cons_tl, Exists_cons_hd. vm_compute. reflexivity.
  - vm_compute. reflexivity.
Defined.

Lemma X17_thermal_advice_and_trend_witness :
  exists r,
    _analyze_performance_trends Iso8601.fromisoformat Scenario.warm Scenario.now 30
      !! "thermal_performance" = Some r
    /\ trend r = degrading
    /\ recommendations r = [].
Proof.
  assert (E : _analyze_performance_trends Iso8601.fromisoformat Scenario.warm
                Scenario.now 30 !! "thermal_performance"
              = Some {| metric_name := "Thermal Performance";
                        current_value := 400 # 5;
                        trend := degrading;
                        prediction := None;
                        confidence := 6 # 10;
                        recommendations := [] |})
    by (vm_compute; reflexivity).
  eexists. split; [exact E|].
  destruct (X17_thermal_advice_and_trend Iso8601.fromisoformat Scenario.warm
              Scenario.now 30 _ E) as (_ & _ & H).
  apply H. cbn [current_value]. split; unfold Qle; simpl; lia.
Defined.


Lemma X19_battery_cycles_result_witness :
  exists cycle_counts,
    (window Iso8601.fromisoformat Scenario.falling "battery" Scenario.now 30
       ≫= column "cycle_count" is_not_None) = Some cycle_counts
    /\ (2 <= length cycle_counts)%nat.
Proof.
  destruct (X19_battery_cycles_result Iso8601.fromisoformat Scenario.falling
              Scenario.now 30
              {| metric_name := "Battery Cycles";
                 current_value := 412;
                 trend := stable;
                 prediction := Some 412%Q;
                 confidence := 8 # 10;
                 recommendations := [] |})
    as (recent_history & cycle_counts & values & Hw & _ & Hcol & _ & Hlen & _).
  - vm_compute. reflexivity.
  - exists cycle_counts. rewrite Hw. cbn [mbind option_bind]. split; assumption.
Defined.


Lemma X21_advice_escalates_witness :
  In "Battery cycle count is high - consider replacement"
     (_get_cycle_recommendations 1200)
  /\ In "Storage usage increasing rapidly" (_get_storage_recommendations improving 97).
Proof.
  destruct (X21_advice_escalates improving 1200) as (H1 & _).
  destruct (X21_advice_escalates improving 97) as (_ & _ & H3 & _).
  split.
  - apply H1. vm_compute. auto 10.
  - apply H3. vm_compute. auto 10.
Defined.


Lemma X23_performance_bad_memory_reading_witness :
  _get_performance_metrics Scenario.garbled_memory
  = {[ "total_memory_gb" := VNone; "thermal_state" := VNone ]}
  /\ _get_performance_metrics Scenario.no_memory
     = {[ "total_memory_gb" := VNone; "thermal_state" := VStr "Serious" ]}.
Proof.
  split.
  - apply (X23_performance_bad_memory_reading Scenario.garbled_memory
             {| returncode := 0; stdout := "n/a" |}
             {| returncode := 0; stdout := "Serious" |});
      vm_compute; reflexivity.
  - apply (X23_performance_bad_memory_reading Scenario.no_memory
             {| returncode := 1; stdout := "" |}
             {| returncode := 0; stdout := " Serious " |});
      try reflexivity. discriminate.
Defined.
